(** * gh-jira-sync-bot: the webhook handler of [github_jira_sync_app/main.py]

    A shallow embedding of [merge_dicts] and of the request handler [bot],
    followed by the properties of the reconciliation engine.

    Modelling conventions.
    - A decoded JSON / YAML document is a [value].  A Python [dict] is an
      association list in insertion order whose keys are strings; a real
      dict never holds a key twice, which is the predicate [wf_dict].
      Floating point numbers are left out.  Documents are trees: two
      positions of a document never share one mutable object.
    - Strings are [string]s of 8-bit characters.  [str.lower] lowers the
      ASCII letters in the model; what the case tables of Unicode do to the
      other characters is taken from the collaborator [unicode_lower].
    - The GitHub and Jira clients and the markup renderer are collaborators.
      What they answer is read from a [World]; every call made to them is
      appended to a trace.  A collaborator call is taken to succeed, except
      for the two failures the handler itself catches ([GithubException]
      from [get_contents], an exception of [yaml.safe_load]). *)

From Stdlib Require Import List String Ascii Bool ZArith Arith Lia.
Import ListNotations.
Local Open Scope string_scope.
Local Open Scope list_scope.
Set Warnings "-register-all".

(** ** Documents *)

Inductive value : Type :=
| VNone
| VBool (b : bool)
| VInt (z : Z)
| VStr (s : string)
| VList (l : list value)
| VDict (d : list (string * value)).

Definition dict : Type := list (string * value).

(** Induction over documents, with the hypotheses for the elements of a
    list and for the values of a dict. *)
Section ValueInduction.
Variable P : value -> Prop.
Hypothesis HNone : P VNone.
Hypothesis HBool : forall b, P (VBool b).
Hypothesis HInt : forall z, P (VInt z).
Hypothesis HStr : forall s, P (VStr s).
Hypothesis HList : forall l, Forall P l -> P (VList l).
Hypothesis HDict : forall d, Forall (fun kv => P (snd kv)) d -> P (VDict d).

Fixpoint value_nested_ind (v : value) : P v :=
  match v with
  | VNone => HNone
  | VBool b => HBool b
  | VInt z => HInt z
  | VStr s => HStr s
  | VList l =>
      HList l
        ((fix go (l : list value) : Forall P l :=
            match l with
            | [] => Forall_nil _
            | x :: r => Forall_cons _ (value_nested_ind x) (go r)
            end) l)
  | VDict d =>
      HDict d
        ((fix go (d : dict) : Forall (fun kv => P (snd kv)) d :=
            match d with
            | [] => Forall_nil _
            | kv :: r =>
                Forall_cons (P := fun kv => P (snd kv)) kv
                  (value_nested_ind (snd kv)) (go r)
            end) d)
  end.
End ValueInduction.

(** ** Dict primitives *)

(** [d.get(k)]: the value stored under [k], if any. *)
Fixpoint dict_get (k : string) (d : dict) : option value :=
  match d with
  | [] => None
  | (k', v) :: r => if String.eqb k k' then Some v else dict_get k r
  end.

(** [k in d] *)
Definition dict_mem (k : string) (d : dict) : bool :=
  match dict_get k d with Some _ => true | None => false end.

(** [d[k] = v]: an existing key keeps its position, a new key goes last. *)
Fixpoint dict_set (k : string) (v : value) (d : dict) : dict :=
  match d with
  | [] => [(k, v)]
  | (k', v') :: r =>
      if String.eqb k k' then (k', v) :: r else (k', v') :: dict_set k v r
  end.


Definition dict_keys (d : dict) : list string := map fst d.

(** A Python dict holds every key once, at every depth. *)
Fixpoint wf_value (v : value) : Prop :=
  match v with
  | VList l => (fix all (l : list value) : Prop :=
                  match l with [] => True | x :: r => wf_value x /\ all r end) l
  | VDict d =>
      NoDup (map fst d) /\
      (fix all (d : dict) : Prop :=
         match d with [] => True | kv :: r => wf_value (snd kv) /\ all r end) d
  | _ => True
  end.

Definition wf_dict (d : dict) : Prop := wf_value (VDict d).

(** ** [merge_dicts] (main.py, lines 88-99)

    The function mutates [d1]; the embedding returns the dict [d1] has become.
    [merge_entry] is the body of the [for] loop for one key of [d2]. *)

Fixpoint merge_into (d1 : dict) (v2 : value) {struct v2} : dict :=
  match v2 with
  | VDict d2 =>
      (fix loop (d1 : dict) (d2 : dict) {struct d2} : dict :=
         match d2 with
         | [] => d1
         | (key, v) :: rest =>
             loop
               (match dict_get key d1 with
                | Some (VDict a) =>
                    match v with
                    | VDict _ => dict_set key (VDict (merge_into a v)) d1
                    | _ => d1
                    end
                | Some _ => d1
                | None => d1 ++ [(key, v)]
                end)
               rest
         end) d1 d2
  | _ => d1
  end.

Definition merge_dicts (d1 d2 : dict) : dict := merge_into d1 (VDict d2).

Definition merge_entry (d1 : dict) (key : string) (v : value) : dict :=
  match dict_get key d1 with
  | Some (VDict a) =>
      match v with
      | VDict b => dict_set key (VDict (merge_dicts a b)) d1
      | _ => d1
      end
  | Some _ => d1
  | None => d1 ++ [(key, v)]
  end.


(** ** The Python operations the handler applies to documents *)

Inductive exn : Type :=
| KeyError (key : string)
| TypeError
| AttributeError
| IndexError
| ScannerError
| YAMLError          (* an error of [yaml.safe_load] that is not a [ScannerError] *)
| GithubException
| HTTPException (status : Z).

Definition result (A : Type) : Type := (exn + A)%type.

Definition rbind {A B : Type} (x : result A) (f : A -> result B) : result B :=
  match x with
  | inl e => inl e
  | inr a => f a
  end.

Notation "'let?' x ':=' e 'in' k" := (rbind e (fun x => k))
  (at level 10, x name, e at level 100, k at level 200).

(** [v[key]] for a string [key]: only a dict can be indexed by a string. *)
Definition getitem (v : value) (key : string) : result value :=
  match v with
  | VDict d =>
      match dict_get key d with
      | Some x => inr x
      | None => inl (KeyError key)
      end
  | _ => inl TypeError
  end.

(** [bool(v)] *)
Definition truthy (v : value) : bool :=
  match v with
  | VNone => false
  | VBool b => b
  | VInt z => negb (Z.eqb z 0)
  | VStr s => negb (String.eqb s "")
  | VList l => match l with [] => false | _ => true end
  | VDict d => match d with [] => false | _ => true end
  end.

(** [v == s] for a string [s] *)
Definition eq_str (v : value) (s : string) : bool :=
  match v with
  | VStr t => String.eqb t s
  | _ => false
  end.

(** [v == os.getenv(...)]: the variable is a string, or [None] when unset. *)
Definition eq_getenv (v : value) (e : option string) : bool :=
  match e, v with
  | Some s, VStr t => String.eqb t s
  | None, VNone => true
  | _, _ => false
  end.

Fixpoint chars (s : string) : list string :=
  match s with
  | EmptyString => []
  | String c r => String c EmptyString :: chars r
  end.

(** [for x in v]: the elements of a list, the keys of a dict, the
    characters of a string. *)
Definition iterate (v : value) : result (list value) :=
  match v with
  | VList l => inr l
  | VDict d => inr (map VStr (dict_keys d))
  | VStr s => inr (map VStr (chars s))
  | _ => inl TypeError
  end.

Definition is_upper (c : ascii) : bool :=
  (65 <=? nat_of_ascii c)%nat && (nat_of_ascii c <=? 90)%nat.

Definition lower_ascii (c : ascii) : ascii :=
  if is_upper c then ascii_of_nat (nat_of_ascii c + 32) else c.

(** The ASCII letters of a string, lowered. *)
Fixpoint ascii_lower (s : string) : string :=
  match s with
  | EmptyString => EmptyString
  | String c r => String (lower_ascii c) (ascii_lower r)
  end.

Fixpoint is_prefix (s t : string) : bool :=
  match s, t with
  | EmptyString, _ => true
  | String a s', String b t' => Ascii.eqb a b && is_prefix s' t'
  | String _ _, EmptyString => false
  end.

Fixpoint is_substring (s t : string) : bool :=
  is_prefix s t ||
  match t with
  | EmptyString => false
  | String _ t' => is_substring s t'
  end.

(** [s in v] for a string [s]: key of a dict, element of a list, substring
    of a string. *)
Definition contains (v : value) (s : string) : result bool :=
  match v with
  | VDict d => inr (dict_mem s d)
  | VList l => inr (existsb (fun x => eq_str x s) l)
  | VStr t => inr (is_substring s t)
  | _ => inl TypeError
  end.

(** [s in l] for a list of strings *)
Definition str_in (s : string) (l : list string) : bool :=
  existsb (String.eqb s) l.

(** A list comprehension [[f(x) for x in l]]: the first failure ends it. *)
Fixpoint map_result {A B : Type} (f : A -> result B) (l : list A) : result (list B) :=
  match l with
  | [] => inr []
  | x :: r =>
      let? y := f x in
      let? ys := map_result f r in
      inr (y :: ys)
  end.

(** ** Collaborators, calls and the handler monad *)

(** A Jira issue as the handler reads it. *)
Record Ticket : Type := {
  ticket_key : string;
  permalink : string;
  components : list string          (* [fields.components], by name *)
}.

(** A GitHub issue as the handler reads it. *)
Record Issue : Type := {
  title : string;
  body : option string;             (* [None] for an issue with no text *)
  html_url : string;
  user_login : string
}.

(** What [repo.get_contents] and [yaml.safe_load] make of the repository's
    config file. *)
Inductive config_file : Type :=
| ConfigNotFound                          (* [get_contents] raises [GithubException] *)
| ConfigContent (loaded : result value).  (* what [yaml.safe_load] does with the content *)

Record World : Type := {
  BOT_NAME : option string;
  WEBHOOK_SECRET : option string;
  hmac_sha256_hex : string -> string -> string;
  unicode_lower : string -> string;   (* [str.lower], by the case tables of Unicode *)
  DEFAULT_SETTINGS : dict;
  render : string -> string;
  gh_issue : value -> Issue;
  gh_config : config_file;
  jira_search_issues : value -> string -> list Ticket;
  jira_project_components : value -> list string;
  jira_create_issue : dict -> Ticket
}.

(** [s.lower()].  Python lowers every cased letter of Unicode, not the
    ASCII ones alone.  The ASCII letters are lowered here; what the case
    tables do beyond them is the collaborator [unicode_lower], Python's own
    function.  It is given the string with its ASCII letters lowered, and
    its result goes through [ascii_lower] once more.  For Python's function
    neither pass changes the result: [s.lower()] depends on the ASCII
    letters of [s] only up to their case, and holds no ASCII capital.  The
    two passes make these two facts hold in every [World]. *)
Definition lower (w : World) (s : string) : string :=
  ascii_lower (unicode_lower w (ascii_lower s)).

(** [v.lower()]: only a string has the method. *)
Definition str_lower (w : World) (v : value) : result string :=
  match v with
  | VStr s => inr (lower w s)
  | _ => inl AttributeError
  end.

(** The calls on the GitHub and Jira clients.  The text of a Jira query or
    comment is an f-string over the arguments kept here. *)
Inductive call : Type :=
| GhGetInstallationToken (owner repo_name : value)
| GhGetRepo (owner repo_name : value)
| GhGetIssue (number : value)
| GhGetContents (path : string)
| GhCreateComment (text : string)
| JiraSearchIssues (project_key : value) (url : string)
| JiraProjectComponents (project_key : value)
| JiraCreateIssue (fields : dict)
| JiraTransitionIssue (t : Ticket) (status : value)
| JiraUpdate (t : Ticket) (fields : dict)
| JiraAddComment (t : Ticket) (login : value) (text : string).

Inductive response : Type :=
| RespOk            (* ["ok"] *)
| RespBotIgnored.   (* [{"msg": "Action was triggered by bot. Ignoring."}] *)

(** How a block of the handler ends: it falls through with a value, it
    executes [return], or it raises. *)
Inductive outcome (A : Type) : Type :=
| Next (a : A)
| Return (r : response)
| Raise (e : exn).
Arguments Next {A} a.
Arguments Return {A} r.
Arguments Raise {A} e.

Definition M (A : Type) : Type := (list call * outcome A)%type.

Definition ret {A : Type} (a : A) : M A := ([], Next a).
Definition done {A : Type} (r : response) : M A := ([], Return r).
Definition raise {A : Type} (e : exn) : M A := ([], Raise e).
Definition do_call (c : call) : M unit := ([c], Next tt).

Definition lift {A : Type} (x : result A) : M A :=
  match x with
  | inl e => raise e
  | inr a => ret a
  end.

Definition bind {A B : Type} (m : M A) (f : A -> M B) : M B :=
  match snd m with
  | Next a => (fst m ++ fst (f a), snd (f a))
  | Return r => (fst m, Return r)
  | Raise e => (fst m, Raise e)
  end.

Notation "x <- m ;; k" := (bind m (fun x => k))
  (at level 61, m at next level, right associativity).
Notation "m ;; k" := (bind m (fun _ => k))
  (at level 61, right associativity).
Notation "x <~ e ;; k" := (bind (lift e) (fun x => k))
  (at level 61, e at next level, right associativity).

(** What the caller of the handler gets. *)
Definition finish (m : M response) : list call * result response :=
  (fst m,
   match snd m with
   | Next r => inr r
   | Return r => inr r
   | Raise e => inl e
   end).

(** ** Text templates (main.py, lines 35-50) *)

Definition nl : string := String (ascii_of_nat 10) EmptyString.

(** [str.format] of an optional string prints [None] as the word. *)
Definition format_opt (s : option string) : string :=
  match s with
  | Some t => t
  | None => "None"
  end.

Definition jira_issue_description_template
  (gh_issue_url gh_issue_author : string) (gh_issue_body : option string) : string :=
  nl ++ "This issue was created from GitHub Issue " ++ gh_issue_url ++ nl ++
  "Issue was submitted by: " ++ gh_issue_author ++ nl ++ nl ++
  "PLEASE KEEP ALL THE CONVERSATION ON GITHUB" ++ nl ++ nl ++
  format_opt gh_issue_body ++ nl.

Definition gh_comment_body_template (jira_issue_link : string) : string :=
  nl ++ "Thank you for reporting us your feedback!" ++ nl ++ nl ++
  "The internal ticket has been created: " ++ jira_issue_link ++ "." ++ nl ++ nl ++
  "> This message was autogenerated" ++ nl.

Definition msg_config_not_found : string :=
  ".github/.jira_sync_config.yaml file was not found".
Definition msg_config_invalid : string :=
  ".github/.jira_sync_config.yaml file is invalid. Check syntax.".
Definition msg_no_project_key : string :=
  "Jira project key is not specified. Add `jira_project_key` key to the settings file.".
Definition msg_no_status_mapping : string :=
  "Status mapping is not specified. Add `status_mapping` key to the settings file.".

(** ** [verify_signature] (main.py, lines 102-119)

    The HMAC itself is the collaborator [hmac_sha256_hex]. *)

Record Request : Type := {
  request_body : string;
  x_hub_signature_256 : option string
}.

(** The strings [hmac.compare_digest] accepts: ASCII only. *)
Fixpoint is_ascii (s : string) : bool :=
  match s with
  | EmptyString => true
  | String c r => (nat_of_ascii c <? 128)%nat && is_ascii r
  end.

(** [hmac.compare_digest(a, b)] on two strings *)
Definition compare_digest (a b : string) : result bool :=
  if is_ascii a && is_ascii b then inr (String.eqb a b) else inl TypeError.

Definition verify_signature (w : World) (payload_body : string)
  (secret_token : option string) (signature_header : option string) : M unit :=
  match signature_header with
  | None => raise (HTTPException 403)
  | Some header =>
      if String.eqb header "" then raise (HTTPException 403)
      else
        match secret_token with
        | None => raise AttributeError
        | Some secret =>
            let expected_signature := ("sha256=" ++ hmac_sha256_hex w secret payload_body)%string in
            same <~ compare_digest expected_signature header ;;
            if same then ret tt
            else raise (HTTPException 403)
        end
  end.

(** ** The handler [bot] (main.py, lines 122-279), block by block *)

(** Lines 130-143: the events the handler does not act on. *)
Definition classify (w : World) (payload : dict) : M unit :=
  not_issue_opened <-
    (if negb (dict_mem "action" payload && dict_mem "issue" payload)
     then action <~ getitem (VDict payload) "action" ;; ret (eq_str action "opened")
     else ret false) ;;
  if not_issue_opened then done RespOk
  else
    sender <~ getitem (VDict payload) "sender" ;;
    login <~ getitem sender "login" ;;
    if eq_getenv login (BOT_NAME w) then done RespBotIgnored
    else
      action <~ getitem (VDict payload) "action" ;;
      if eq_str action "deleted" || eq_str action "unlabeled" then done RespOk
      else
        action <~ getitem (VDict payload) "action" ;;
        if eq_str action "edited" && dict_mem "comment" payload then done RespOk
        else ret tt.

(** Lines 145-159: the repository and the issue of the event. *)
Definition connect (w : World) (payload : dict) : M Issue :=
  repository <~ getitem (VDict payload) "repository" ;;
  repo_owner <~ getitem repository "owner" ;;
  owner <~ getitem repo_owner "login" ;;
  repository <~ getitem (VDict payload) "repository" ;;
  repo_name <~ getitem repository "name" ;;
  do_call (GhGetInstallationToken owner repo_name) ;;
  do_call (GhGetRepo owner repo_name) ;;
  payload_issue <~ getitem (VDict payload) "issue" ;;
  number <~ getitem payload_issue "number" ;;
  do_call (GhGetIssue number) ;;
  ret (gh_issue w number).

(** Line 175 calls [merge_dicts] on whatever the config file holds.  On a
    document that is not a dict the first key of the defaults fails, at
    [key in d1] or at the access or the assignment that follows it. *)
Definition merge_default_settings (settings : value) (defaults : dict) : result value :=
  match settings with
  | VDict d1 => inr (VDict (merge_dicts d1 defaults))
  | _ =>
      match defaults with
      | [] => inr settings
      | _ :: _ => inl TypeError
      end
  end.

(** Lines 160-189: the settings of the repository. *)
Definition load_settings (w : World) : M value :=
  do_call (GhGetContents ".github/.jira_sync_config.yaml") ;;
  match gh_config w with
  | ConfigNotFound =>
      do_call (GhCreateComment msg_config_not_found) ;;
      done RespOk
  | ConfigContent (inl ScannerError) =>
      do_call (GhCreateComment msg_config_invalid) ;;
      done RespOk
  | ConfigContent (inl e) => raise e
  | ConfigContent (inr settings) =>
      settings <~ merge_default_settings settings (DEFAULT_SETTINGS w) ;;
      settings <~ getitem settings "settings" ;;
      jira_project_key <~ getitem settings "jira_project_key" ;;
      if negb (truthy jira_project_key)
      then do_call (GhCreateComment msg_no_project_key) ;; done RespOk
      else
        status_mapping <~ getitem settings "status_mapping" ;;
        if negb (truthy status_mapping)
        then do_call (GhCreateComment msg_no_status_mapping) ;; done RespOk
        else ret settings
  end.

(** Line 191 *)
Definition allowed_labels_of (w : World) (settings : value) : result (list string) :=
  let? labels := getitem settings "labels" in
  let? items := iterate labels in
  map_result (str_lower w) items.

(** Line 192 *)
Definition payload_labels_of (w : World) (payload : dict) : result (list string) :=
  let? payload_issue := getitem (VDict payload) "issue" in
  let? labels := getitem payload_issue "labels" in
  let? items := iterate labels in
  map_result (fun label => let? name := getitem label "name" in str_lower w name) items.

(** Line 193: the condition under which the event is dropped. *)
Definition label_blocked (allowed_labels payload_labels : list string) : bool :=
  match allowed_labels with
  | [] => false
  | _ :: _ => negb (existsb (fun label => str_in label allowed_labels) payload_labels)
  end.

(** Lines 191-195: the label gate; it hands on the lowercased labels. *)
Definition label_gate (w : World) (settings : value) (payload : dict)
  : M (list string) :=
  allowed_labels <~ allowed_labels_of w settings ;;
  payload_labels <~ payload_labels_of w payload ;;
  if label_blocked allowed_labels payload_labels then done RespOk
  else ret payload_labels.

(** Lines 197-202: the tickets that carry the issue's URL. *)
Definition locate (w : World) (settings : value) (issue : Issue) : M (list Ticket) :=
  jira_project_key <~ getitem settings "jira_project_key" ;;
  do_call (JiraSearchIssues jira_project_key (html_url issue)) ;;
  ret (jira_search_issues w jira_project_key (html_url issue)).

(** Lines 203-212 *)
Definition issue_description (w : World) (settings : value) (issue : Issue) : result string :=
  let? sync_description := getitem settings "sync_description" in
  let issue_body := if truthy sync_description then body issue else Some "" in
  let issue_body :=
    match issue_body with
    | Some text => if String.eqb text "" then Some text else Some (render w text)
    | None => None
    end in
  inr (jira_issue_description_template (html_url issue) (user_login issue) issue_body).

(** Lines 216-219: the loop over the lowercased labels of the issue. *)
Fixpoint issue_type_loop (label_mapping : value) (payload_labels : list string)
  : result value :=
  match payload_labels with
  | [] => inr (VStr "Bug")
  | label :: rest =>
      let? found := contains label_mapping label in
      if found then getitem label_mapping label
      else issue_type_loop label_mapping rest
  end.

(** Lines 214-219 *)
Definition resolve_issue_type (settings : value) (payload_labels : list string)
  : result value :=
  let? label_mapping := getitem settings "label_mapping" in
  if truthy label_mapping then issue_type_loop label_mapping payload_labels
  else inr (VStr "Bug").

(** Lines 233-237: the configured components the project knows. *)
Definition map_components (configured : list value) (allowed_components : list string)
  : list value :=
  map (fun component => VDict [("name", component)])
      (filter (fun component => existsb (eq_str component) allowed_components) configured).

(** Lines 203-237: the fields of the ticket. *)
Definition map_fields (w : World) (settings : value) (payload_labels : list string)
  (issue : Issue) : M dict :=
  description <~ issue_description w settings issue ;;
  issue_type <~ resolve_issue_type settings payload_labels ;;
  jira_project_key <~ getitem settings "jira_project_key" ;;
  let issue_dict :=
    [("project", VDict [("key", jira_project_key)]);
     ("summary", VStr (title issue));
     ("description", VStr description);
     ("issuetype", VDict [("name", issue_type)])] in
  epic_key <~ getitem settings "epic_key" ;;
  issue_dict <-
    (if truthy epic_key
     then epic_key <~ getitem settings "epic_key" ;;
          ret (dict_set "parent" (VDict [("key", epic_key)]) issue_dict)
     else ret issue_dict) ;;
  configured <~ getitem settings "components" ;;
  if truthy configured
  then
    jira_project_key <~ getitem settings "jira_project_key" ;;
    do_call (JiraProjectComponents jira_project_key) ;;
    let allowed_components := jira_project_components w jira_project_key in
    configured <~ getitem settings "components" ;;
    items <~ iterate configured ;;
    ret (dict_set "components" (VList (map_components items allowed_components)) issue_dict)
  else ret issue_dict.

(** What lines 130-240 leave for the reconciliation. *)
Record Context : Type := {
  ctx_settings : value;
  ctx_issue_dict : dict;
  ctx_existing_issues : list Ticket;
  ctx_opened_status : value;
  ctx_closed_status : value
}.

(** Lines 130-159 *)
Definition identify (w : World) (payload : dict) : M Issue :=
  classify w payload ;;
  connect w payload.

(** Lines 130-189 *)
Definition resolve (w : World) (payload : dict) : M (Issue * value) :=
  issue <- identify w payload ;;
  settings <- load_settings w ;;
  ret (issue, settings).

(** Lines 130-240 *)
Definition prepare (w : World) (payload : dict) : M Context :=
  resolved <- resolve w payload ;;
  let issue := fst resolved in
  let settings := snd resolved in
  payload_labels <- label_gate w settings payload ;;
  existing_issues <- locate w settings issue ;;
  issue_dict <- map_fields w settings payload_labels issue ;;
  status_mapping <~ getitem settings "status_mapping" ;;
  opened_status <~ getitem status_mapping "opened" ;;
  status_mapping <~ getitem settings "status_mapping" ;;
  closed_status <~ getitem status_mapping "closed" ;;
  ret {| ctx_settings := settings;
         ctx_issue_dict := issue_dict;
         ctx_existing_issues := existing_issues;
         ctx_opened_status := opened_status;
         ctx_closed_status := closed_status |}.

(** Line 263: [issue_dict["components"].append({"name": component.name})] *)
Definition append_component (issue_dict : dict) (name : string) : result dict :=
  let? current := getitem (VDict issue_dict) "components" in
  match current with
  | VList l =>
      inr (dict_set "components" (VList (l ++ [VDict [("name", VStr name)]])) issue_dict)
  | _ => inl AttributeError
  end.

(** Lines 262-263 *)
Fixpoint append_components (issue_dict : dict) (names : list string) : result dict :=
  match names with
  | [] => inr issue_dict
  | name :: rest =>
      let? issue_dict := append_component issue_dict name in
      append_components issue_dict rest
  end.

(** Lines 242-265: create, or act on the first ticket found.  The value is
    the list [existing_issues] as the block leaves it. *)
Definition create_or_update (w : World) (payload : dict) (ctx : Context)
  : M (list Ticket) :=
  match ctx_existing_issues ctx with
  | [] =>
      action <~ getitem (VDict payload) "action" ;;
      if eq_str action "closed" then done RespOk
      else
        do_call (JiraCreateIssue (ctx_issue_dict ctx)) ;;
        let new_issue := jira_create_issue w (ctx_issue_dict ctx) in
        let existing_issues := ctx_existing_issues ctx ++ [new_issue] in
        add_gh_comment <~ getitem (ctx_settings ctx) "add_gh_comment" ;;
        if truthy add_gh_comment
        then do_call (GhCreateComment (gh_comment_body_template (permalink new_issue))) ;;
             ret existing_issues
        else ret existing_issues
  | jira_issue :: _ =>
      action <~ getitem (VDict payload) "action" ;;
      if eq_str action "closed"
      then do_call (JiraTransitionIssue jira_issue (ctx_closed_status ctx)) ;;
           ret (ctx_existing_issues ctx)
      else
        action <~ getitem (VDict payload) "action" ;;
        if eq_str action "reopened"
        then do_call (JiraTransitionIssue jira_issue (ctx_opened_status ctx)) ;;
             ret (ctx_existing_issues ctx)
        else
          action <~ getitem (VDict payload) "action" ;;
          if eq_str action "edited"
          then
            configured <~ getitem (ctx_settings ctx) "components" ;;
            issue_dict <~
              (if truthy configured
               then append_components (ctx_issue_dict ctx) (components jira_issue)
               else inr (ctx_issue_dict ctx)) ;;
            do_call (JiraUpdate jira_issue issue_dict) ;;
            ret (ctx_existing_issues ctx)
          else ret (ctx_existing_issues ctx)
  end.

(** [Document(comment_body)] followed by [render]: modelled on a string. *)
Definition render_document (w : World) (text : value) : result string :=
  match text with
  | VStr s => inr (render w s)
  | _ => inl TypeError
  end.

(** The condition of line 267, with the short circuit of [and]. *)
Definition is_comment_sync (payload : dict) (ctx : Context) : result bool :=
  let? sync_comments := getitem (ctx_settings ctx) "sync_comments" in
  if truthy sync_comments
  then
    let? action := getitem (VDict payload) "action" in
    inr (eq_str action "created" && dict_mem "comment" payload)
  else inr false.

(** Lines 267-279 *)
Definition sync_comment (w : World) (payload : dict) (ctx : Context)
  (existing_issues : list Ticket) : M response :=
  comment_event <~ is_comment_sync payload ctx ;;
  if comment_event
  then
    comment <~ getitem (VDict payload) "comment" ;;
    comment_body <~ getitem comment "body" ;;
    comment_body <~ render_document w comment_body ;;
    first <~ match existing_issues with
             | [] => inl IndexError
             | t :: _ => inr t
             end ;;
    sender <~ getitem (VDict payload) "sender" ;;
    login <~ getitem sender "login" ;;
    do_call (JiraAddComment first login comment_body) ;;
    done RespOk
  else done RespOk.

(** Lines 242-279 *)
Definition reconcile (w : World) (payload : dict) (ctx : Context) : M response :=
  existing_issues <- create_or_update w payload ctx ;;
  sync_comment w payload ctx existing_issues.

(** Lines 130-279: the handler once the signature is verified. *)
Definition bot_event (w : World) (payload : dict) : list call * result response :=
  finish (ctx <- prepare w payload ;; reconcile w payload ctx).

(** Lines 122-279 *)
Definition bot (w : World) (request : Request) (payload : dict)
  : list call * result response :=
  finish
    (verify_signature w (request_body request) (WEBHOOK_SECRET w)
       (x_hub_signature_256 request) ;;
     ctx <- prepare w payload ;;
     reconcile w payload ctx).

(** ** Vocabulary of the properties *)

(** *** Settings merge *)

(** [absorbs x v]: merging [v] into [x] would not change [x]. *)
Definition absorbs (x v : value) : Prop :=
  match x, v with
  | VDict a, VDict b => merge_dicts a b = a
  | _, _ => True
  end.

(** [covers m b]: every key of [b] is in [m], under a value that absorbs
    the one [b] has. *)
Definition covers (m b : dict) : Prop :=
  Forall (fun kv => exists x, dict_get (fst kv) m = Some x /\ absorbs x (snd kv)) b.

(** What the induction on the document [b] carries. *)
Definition merge_stable (v : value) : Prop :=
  wf_value v ->
  match v with
  | VDict b =>
      (forall a, merge_dicts (merge_dicts a b) b = merge_dicts a b) /\
      merge_dicts b b = b
  | _ => True
  end.

(** *** Kinds of calls *)

Definition is_jira_call (c : call) : bool :=
  match c with
  | JiraSearchIssues _ _ | JiraProjectComponents _ | JiraCreateIssue _
  | JiraTransitionIssue _ _ | JiraUpdate _ _ | JiraAddComment _ _ _ => true
  | _ => false
  end.

(** The calls that create or change a ticket. *)
Definition is_ticket_change (c : call) : bool :=
  match c with
  | JiraCreateIssue _ | JiraTransitionIssue _ _ | JiraUpdate _ _
  | JiraAddComment _ _ _ => true
  | _ => false
  end.

Definition is_create (c : call) : bool :=
  match c with
  | JiraCreateIssue _ => true
  | _ => false
  end.

Definition is_issue_comment (c : call) : bool :=
  match c with
  | GhCreateComment _ => true
  | _ => false
  end.

(** A block that calls no collaborator. *)
Definition quiet {A : Type} (m : M A) : Prop := fst m = [].

(** *** Configuration *)

Definition config_path : string := ".github/.jira_sync_config.yaml".

(** The [settings] mapping of line 177, when the config file was read and
    loaded. *)
Definition merged_settings (w : World) : result value :=
  match gh_config w with
  | ConfigNotFound => inl GithubException
  | ConfigContent (inl e) => inl e
  | ConfigContent (inr settings) =>
      let? merged := merge_default_settings settings (DEFAULT_SETTINGS w) in
      getitem merged "settings"
  end.

(** [has_nonempty settings key]: the mapping holds a truthy value under [key]. *)
Definition has_nonempty (settings : value) (key : string) : bool :=
  match getitem settings key with
  | inr v => truthy v
  | inl _ => false
  end.

(** The configuration errors the handler answers with a comment on the
    issue, each with its text. *)
Inductive user_fixable (w : World) : string -> Prop :=
| ConfigMissing :
    gh_config w = ConfigNotFound ->
    user_fixable w msg_config_not_found
| ConfigInvalid :
    gh_config w = ConfigContent (inl ScannerError) ->
    user_fixable w msg_config_invalid
| NoProjectKey (settings v : value) :
    merged_settings w = inr settings ->
    getitem settings "jira_project_key" = inr v ->
    truthy v = false ->
    user_fixable w msg_no_project_key
| NoStatusMapping (settings v v' : value) :
    merged_settings w = inr settings ->
    getitem settings "jira_project_key" = inr v ->
    truthy v = true ->
    getitem settings "status_mapping" = inr v' ->
    truthy v' = false ->
    user_fixable w msg_no_status_mapping.

(** *** Labels *)

(** The issue of the payload carries label objects with these names, in
    this order. *)
Definition issue_label_names (payload : dict) (names : list string) : Prop :=
  exists payload_issue items,
    getitem (VDict payload) "issue" = inr payload_issue /\
    getitem payload_issue "labels" = inr (VList items) /\
    Forall2 (fun item name => getitem item "name" = inr (VStr name)) items names.

(** Two characters that are equal, or the upper and the lower case of one
    ASCII letter. *)
Definition same_letter (a b : ascii) : Prop :=
  a = b \/
  (is_upper a = true /\ nat_of_ascii b = nat_of_ascii a + 32) \/
  (is_upper b = true /\ nat_of_ascii a = nat_of_ascii b + 32).

(** Equality of strings up to the case of their ASCII letters, character
    by character. *)
Inductive eq_ci : string -> string -> Prop :=
| eq_ci_empty : eq_ci EmptyString EmptyString
| eq_ci_char (a b : ascii) (s t : string) :
    same_letter a b -> eq_ci s t -> eq_ci (String a s) (String b t).

(** The comparison of lines 191-193 and 216-217: two names are the same
    once both are lowercased. *)
Definition ci_match (w : World) (s t : string) : Prop := lower w s = lower w t.


(** The issue type as the specification words it: the labels are scanned in
    their order, the first one that is a key of the mapping gives the type,
    and the type is "Bug" when none is. *)
Fixpoint first_mapped_label (label_mapping : dict) (labels : list string) : value :=
  match labels with
  | [] => VStr "Bug"
  | label :: rest =>
      match dict_get label label_mapping with
      | Some issue_type => issue_type
      | None => first_mapped_label label_mapping rest
      end
  end.

(** *** Components *)

Definition name_entry (name : string) : value := VDict [("name", VStr name)].

Definition name_of (component : value) : value :=
  match getitem component "name" with
  | inr name => name
  | inl _ => VNone
  end.

(** The component names of a field set, in the order they are sent. *)
Definition component_names (fields : dict) : list value :=
  match dict_get "components" fields with
  | Some (VList l) => map name_of l
  | _ => []
  end.

(** The field sets of the [update] calls of a trace. *)
Fixpoint update_fields (t : list call) : list dict :=
  match t with
  | [] => []
  | JiraUpdate _ fields :: rest => fields :: update_fields rest
  | _ :: rest => update_fields rest
  end.

(** ** A repository, its events and its tickets, for the examples *)

Definition example_defaults : dict :=
  [("settings",
    VDict [("jira_project_key", VStr "");
           ("status_mapping",
            VDict [("opened", VStr "Untriaged"); ("closed", VStr "done")]);
           ("components", VList []);
           ("labels", VList []);
           ("add_gh_comment", VBool false);
           ("sync_description", VBool true);
           ("sync_comments", VBool true);
           ("epic_key", VStr "");
           ("label_mapping", VDict [])])].

(** A config file that sets the project, and whatever [extra] holds. *)
Definition example_config (extra : dict) : config_file :=
  ConfigContent (inr (VDict [("settings", VDict (("jira_project_key", VStr "PRJ") :: extra))])).

Definition example_issue : Issue :=
  {| title := "Crash on start";
     body := Some "It crashes.";
     html_url := "https://github.com/acme/widgets/issues/7";
     user_login := "alice" |}.

Definition example_ticket (names : list string) : Ticket :=
  {| ticket_key := "PRJ-1";
     permalink := "https://jira.example.com/browse/PRJ-1";
     components := names |}.

(** The texts of the examples are ASCII; on such text [str.lower] lowers
    the ASCII letters and nothing else. *)
Definition example_world (config : config_file) (found : list Ticket) : World :=
  {| BOT_NAME := Some "sync-bot";
     WEBHOOK_SECRET := Some "secret";
     hmac_sha256_hex := fun _ _ => "00";
     unicode_lower := fun text => text;
     DEFAULT_SETTINGS := example_defaults;
     render := fun text => text;
     gh_issue := fun _ => example_issue;
     gh_config := config;
     jira_search_issues := fun _ _ => found;
     jira_project_components := fun _ => ["backend"; "ui"];
     jira_create_issue := fun _ => example_ticket [] |}.

Definition label_object (name : string) : value :=
  VDict [("id", VInt 1); ("name", VStr name)].

(** An issue event; [fields] are the top-level keys besides [sender] and
    [repository]. *)
Definition example_payload (fields : dict) : dict :=
  fields ++
  [("sender", VDict [("login", VStr "alice")]);
   ("repository",
    VDict [("owner", VDict [("login", VStr "acme")]); ("name", VStr "widgets")])].

Definition issue_field (labels : list string) : string * value :=
  ("issue", VDict [("number", VInt 7); ("labels", VList (map label_object labels))]).

Definition issue_event (action : string) (labels : list string) : dict :=
  example_payload [("action", VStr action); issue_field labels].

Definition comment_event (action : string) (labels : list string) (text : string) : dict :=
  example_payload
    [("action", VStr action); issue_field labels;
     ("comment", VDict [("body", VStr text)])].

(** ** Vocabulary of the further properties *)

(** A block none of whose calls is of the kind [P]. *)
Definition never {A : Type} (P : call -> bool) (m : M A) : Prop :=
  filter P (fst m) = [].

(** The header GitHub sends with a body signed under [secret]. *)
Definition expected_signature (w : World) (secret body : string) : string :=
  "sha256=" ++ hmac_sha256_hex w secret body.

(** The request carries the signature of its body under the webhook secret. *)
Definition signed (w : World) (request : Request) : Prop :=
  exists secret,
    WEBHOOK_SECRET w = Some secret /\
    x_hub_signature_256 request =
      Some (expected_signature w secret (request_body request)).

Definition example_request (header : option string) : Request :=
  {| request_body := "{}"; x_hub_signature_256 := header |}.

(** The events on which the handler can make a given change of a ticket. *)
Definition change_fits (payload : dict) (c : call) : Prop :=
  match c with
  | JiraCreateIssue _ =>
      exists action,
        getitem (VDict payload) "action" = inr action /\ eq_str action "closed" = false
  | JiraTransitionIssue _ _ =>
      getitem (VDict payload) "action" = inr (VStr "closed") \/
      getitem (VDict payload) "action" = inr (VStr "reopened")
  | JiraUpdate _ _ => getitem (VDict payload) "action" = inr (VStr "edited")
  | JiraAddComment _ _ _ =>
      getitem (VDict payload) "action" = inr (VStr "created") /\
      dict_mem "comment" payload = true
  | _ => True
  end.

(** The calls of the example repository up to the search for the ticket. *)
Definition example_trace : list call :=
  [GhGetInstallationToken (VStr "acme") (VStr "widgets");
   GhGetRepo (VStr "acme") (VStr "widgets");
   GhGetIssue (VInt 7);
   GhGetContents config_path;
   JiraSearchIssues (VStr "PRJ") "https://github.com/acme/widgets/issues/7"].
Lemma merge_dicts_nil (d1 : dict) : merge_dicts d1 [] = d1.
Proof. reflexivity. Qed.

Lemma merge_dicts_cons (d1 : dict) (key : string) (v : value) (rest : dict) :
  merge_dicts d1 ((key, v) :: rest) = merge_dicts (merge_entry d1 key v) rest.
Proof.
  unfold merge_dicts, merge_entry; cbn [merge_into].
  destruct (dict_get key d1) as [[| | | | |a]|]; try reflexivity.
  destruct v; reflexivity.
Qed.

(** *** Facts about the dict primitives *)

Lemma dict_get_set_same (k : string) (v : value) (d : dict) :
  dict_get k (dict_set k v d) = Some v.
Proof.
  induction d as [|[k' v'] r IH]; cbn.
  - now rewrite String.eqb_refl.
  - destruct (String.eqb k k') eqn:E; cbn; rewrite E; auto.
Qed.

Lemma dict_get_set_other (k k' : string) (v : value) (d : dict) :
  k <> k' -> dict_get k (dict_set k' v d) = dict_get k d.
Proof.
  intros Hne. induction d as [|[k2 v2] r IH]; cbn.
  - apply String.eqb_neq in Hne. now rewrite Hne.
  - destruct (String.eqb k' k2) eqn:E; cbn.
    + apply String.eqb_eq in E; subst k2.
      apply String.eqb_neq in Hne. now rewrite Hne.
    + now rewrite IH.
Qed.

Lemma dict_set_get_same (k : string) (v : value) (d : dict) :
  dict_get k d = Some v -> dict_set k v d = d.
Proof.
  induction d as [|[k' v'] r IH]; cbn; [discriminate|].
  destruct (String.eqb k k') eqn:E; intros H.
  - now injection H as ->.
  - now rewrite IH.
Qed.

Lemma dict_get_app (k : string) (d d' : dict) :
  dict_get k (d ++ d') =
  match dict_get k d with Some v => Some v | None => dict_get k d' end.
Proof.
  induction d as [|[k' v'] r IH]; cbn; [reflexivity|].
  now destruct (String.eqb k k').
Qed.

Lemma dict_get_In (k : string) (v : value) (d : dict) :
  dict_get k d = Some v -> In (k, v) d.
Proof.
  induction d as [|[k' v'] r IH]; cbn; [discriminate|].
  destruct (String.eqb k k') eqn:E; intros H.
  - apply String.eqb_eq in E. injection H as ->. left; congruence.
  - right; auto.
Qed.

Lemma dict_get_None_iff (k : string) (d : dict) :
  dict_get k d = None <-> ~ In k (dict_keys d).
Proof.
  induction d as [|[k' v'] r IH]; cbn; [tauto|].
  destruct (String.eqb k k') eqn:E.
  - apply String.eqb_eq in E. split; [discriminate|intros H; exfalso; auto].
  - apply String.eqb_neq in E. rewrite IH. intuition congruence.
Qed.

Lemma wf_dict_cons (k : string) (v : value) (r : dict) :
  wf_dict ((k, v) :: r) <-> ~ In k (dict_keys r) /\ wf_value v /\ wf_dict r.
Proof.
  unfold wf_dict, dict_keys; cbn. rewrite NoDup_cons_iff. tauto.
Qed.

(** *** One merge leaves nothing for a second one to add *)



Lemma merge_entry_absorbed (m : dict) (k : string) (x v : value) :
  dict_get k m = Some x -> absorbs x v -> merge_entry m k v = m.
Proof.
  unfold merge_entry, absorbs. intros Hget Habs. rewrite Hget.
  destruct x; try reflexivity. destruct v; try reflexivity.
  rewrite Habs. now apply dict_set_get_same.
Qed.

Lemma merge_dicts_covered (b m : dict) : covers m b -> merge_dicts m b = m.
Proof.
  unfold covers. induction b as [|[k v] r IH]; intros H; [reflexivity|].
  inversion H as [|? ? [x [Hget Habs]] Hr]; subst; cbn in Hget, Habs.
  rewrite merge_dicts_cons, (merge_entry_absorbed _ _ _ _ Hget Habs). auto.
Qed.

Lemma merge_entry_get_other (m : dict) (k k' : string) (v : value) :
  k <> k' -> dict_get k (merge_entry m k' v) = dict_get k m.
Proof.
  intros Hne. unfold merge_entry.
  destruct (dict_get k' m) as [[| | | | |a]|] eqn:E; try reflexivity.
  - destruct v; try reflexivity. now apply dict_get_set_other.
  - rewrite dict_get_app. destruct (dict_get k m); [reflexivity|].
    cbn. apply String.eqb_neq in Hne. now rewrite Hne.
Qed.

Lemma merge_dicts_get_other (b m : dict) (k : string) :
  ~ In k (dict_keys b) -> dict_get k (merge_dicts m b) = dict_get k m.
Proof.
  revert m. induction b as [|[k' v] r IH]; intros m Hk; [reflexivity|].
  cbn in Hk. rewrite merge_dicts_cons, IH by tauto.
  apply merge_entry_get_other. intros ->; tauto.
Qed.


Lemma absorbs_self (v : value) : merge_stable v -> wf_value v -> absorbs v v.
Proof.
  intros H Hwf. specialize (H Hwf). destruct v; cbn; auto. apply H.
Qed.

Lemma merge_entry_covers_key (a : dict) (k : string) (v : value) :
  merge_stable v -> wf_value v ->
  exists x, dict_get k (merge_entry a k v) = Some x /\ absorbs x v.
Proof.
  intros Hst Hwf. unfold merge_entry.
  destruct (dict_get k a) as [x|] eqn:E.
  - destruct x; try (eexists; split; [exact E|]; now destruct v).
    destruct v; try (eexists; split; [exact E|]; exact I).
    eexists; split; [apply dict_get_set_same|]. cbn. apply (Hst Hwf).
  - exists v. split; [|now apply absorbs_self].
    rewrite dict_get_app, E. cbn. now rewrite String.eqb_refl.
Qed.

Lemma merge_dicts_covers (b : dict) :
  Forall (fun kv => merge_stable (snd kv)) b -> wf_dict b ->
  forall a, covers (merge_dicts a b) b.
Proof.
  unfold covers.
  induction b as [|[k v] r IH]; intros Hst Hwf a; [constructor|].
  apply wf_dict_cons in Hwf as (Hk & Hv & Hr).
  inversion Hst as [|? ? Hstv Hstr]; subst; cbn in Hstv.
  rewrite merge_dicts_cons. constructor; [|now apply IH].
  cbn. rewrite merge_dicts_get_other by assumption.
  now apply merge_entry_covers_key.
Qed.

Lemma covers_self (b : dict) :
  Forall (fun kv => merge_stable (snd kv)) b -> wf_dict b -> covers b b.
Proof.
  intros Hst Hwf. unfold covers.
  assert (G : forall pre, NoDup (dict_keys (pre ++ b)) ->
            Forall (fun kv => exists x,
                      dict_get (fst kv) (pre ++ b) = Some x /\ absorbs x (snd kv)) b).
  { induction b as [|[k v] r IH]; intros pre Hnd; [constructor|].
    apply wf_dict_cons in Hwf as (Hk & Hv & Hr).
    inversion Hst as [|? ? Hstv Hstr]; subst; cbn in Hstv.
    constructor.
    - exists v. split; [|now apply absorbs_self]. cbn.
      rewrite dict_get_app.
      destruct (dict_get k pre) as [x|] eqn:E.
      + exfalso. apply dict_get_In in E.
        unfold dict_keys in Hnd. rewrite map_app in Hnd. cbn in Hnd.
        apply NoDup_remove_2 in Hnd. apply Hnd, in_or_app. left.
        now apply (in_map fst) in E.
      + cbn. now rewrite String.eqb_refl.
    - specialize (IH Hstr Hr (pre ++ [(k, v)])).
      rewrite <- app_assoc in IH. cbn in IH. apply IH. exact Hnd. }
  apply (G []). apply Hwf.
Qed.

Lemma merge_stable_all (v : value) : merge_stable v.
Proof.
  induction v as [| | | | |b IH] using value_nested_ind; try (intros _; exact I).
  intros Hwf. split.
  - intros a. apply merge_dicts_covered. now apply merge_dicts_covers.
  - apply merge_dicts_covered. now apply covers_self.
Qed.

(** ** Reasoning about blocks of the handler *)

Lemma bind_next {A B : Type} (m : M A) (f : A -> M B) (t : list call) (a : A) :
  m = (t, Next a) -> bind m f = (t ++ fst (f a), snd (f a)).
Proof. intros ->. reflexivity. Qed.

Lemma bind_return {A B : Type} (m : M A) (f : A -> M B) (t : list call) (r : response) :
  m = (t, Return r) -> bind m f = (t, Return r).
Proof. intros ->. reflexivity. Qed.

Lemma bind_raise {A B : Type} (m : M A) (f : A -> M B) (t : list call) (e : exn) :
  m = (t, Raise e) -> bind m f = (t, Raise e).
Proof. intros ->. reflexivity. Qed.

Lemma bind_lift_inr {A B : Type} (x : result A) (f : A -> M B) (a : A) :
  x = inr a -> bind (lift x) f = f a.
Proof. intros ->. unfold bind; cbn. now destruct (f a). Qed.

Lemma bind_lift_inl {A B : Type} (x : result A) (f : A -> M B) (e : exn) :
  x = inl e -> bind (lift x) f = ([], Raise e).
Proof. intros ->. reflexivity. Qed.

Lemma bind_call {B : Type} (c : call) (f : unit -> M B) :
  bind (do_call c) f = (c :: fst (f tt), snd (f tt)).
Proof. reflexivity. Qed.

Lemma bind_next_inv {A B : Type} (m : M A) (f : A -> M B) (t : list call) (b : B) :
  bind m f = (t, Next b) ->
  exists t1 a t2, m = (t1, Next a) /\ f a = (t2, Next b) /\ t = t1 ++ t2.
Proof.
  destruct m as [t1 [a|r|e]]; unfold bind; cbn; intros H; try discriminate.
  destruct (f a) as [t2 o] eqn:E; cbn in H. injection H as <- ->. eauto 6.
Qed.

Lemma bind_lift_next_inv {A B : Type} (x : result A) (f : A -> M B)
  (t : list call) (b : B) :
  bind (lift x) f = (t, Next b) -> exists a, x = inr a /\ f a = (t, Next b).
Proof.
  destruct x as [e|a]; [discriminate|]. rewrite (bind_lift_inr _ _ a eq_refl). eauto.
Qed.

Lemma bind_call_next_inv {B : Type} (c : call) (f : unit -> M B)
  (t : list call) (b : B) :
  bind (do_call c) f = (t, Next b) -> exists t', f tt = (t', Next b) /\ t = c :: t'.
Proof.
  rewrite bind_call. destruct (f tt) as [t' o]; cbn. intros H.
  injection H as <- ->. eauto.
Qed.

Lemma ret_next_inv {A : Type} (a b : A) (t : list call) :
  ret a = (t, Next b) -> a = b /\ t = [].
Proof. unfold ret. intros H. injection H as <- <-. auto. Qed.

(** Taking a block that fell through apart, one statement at a time. *)
Ltac step_next H :=
  lazymatch type of H with
  | bind (lift _) _ = (_, Next _) =>
      let a := fresh "v" in
      let E := fresh "Hv" in
      apply bind_lift_next_inv in H; destruct H as (a & E & H)
  | bind (do_call _) _ = (_, Next _) =>
      let t := fresh "t" in
      let E := fresh "Ht" in
      apply bind_call_next_inv in H; destruct H as (t & H & E)
  | bind _ _ = (_, Next _) =>
      let t1 := fresh "t" in
      let t2 := fresh "t" in
      let a := fresh "v" in
      let E := fresh "Hb" in
      let Et := fresh "Ht" in
      apply bind_next_inv in H; destruct H as (t1 & a & t2 & E & H & Et)
  | (if ?c then _ else _) = (_, Next _) =>
      let E := fresh "Hc" in
      destruct c eqn:E; try discriminate H
  | done _ = (_, Next _) => discriminate H
  | raise _ = (_, Next _) => discriminate H
  | ret _ = (_, Next _) =>
      let E := fresh "Ht" in
      apply ret_next_inv in H; destruct H as (H & E)
  end.

Lemma quiet_lift {A : Type} (x : result A) : quiet (lift x).
Proof. now destruct x. Qed.

Lemma quiet_bind {A B : Type} (m : M A) (f : A -> M B) :
  quiet m -> (forall a, quiet (f a)) -> quiet (bind m f).
Proof.
  unfold quiet, bind. destruct m as [t [a|r|e]]; cbn; intros -> Hf; auto.
  apply Hf.
Qed.

Ltac quiet_tac :=
  repeat first
    [ reflexivity
    | apply quiet_lift
    | apply quiet_bind; [|intros ?]
    | match goal with |- quiet (if ?c then _ else _) => destruct c end ].

Lemma classify_quiet (w : World) (payload : dict) : quiet (classify w payload).
Proof. unfold classify. quiet_tac. Qed.

Lemma label_gate_quiet (w : World) (settings : value) (payload : dict) :
  quiet (label_gate w settings payload).
Proof. unfold label_gate. quiet_tac. Qed.

(** *** The blocks, when they fall through *)

Lemma connect_next (w : World) (payload : dict) (t : list call) (issue : Issue) :
  connect w payload = (t, Next issue) ->
  exists owner repo_name number,
    t = [GhGetInstallationToken owner repo_name; GhGetRepo owner repo_name;
         GhGetIssue number].
Proof.
  unfold connect. intros H. repeat step_next H. subst. eauto.
Qed.

Lemma identify_next (w : World) (payload : dict) (t : list call) (issue : Issue) :
  identify w payload = (t, Next issue) ->
  exists owner repo_name number,
    t = [GhGetInstallationToken owner repo_name; GhGetRepo owner repo_name;
         GhGetIssue number].
Proof.
  unfold identify. intros H. step_next H.
  pose proof (classify_quiet w payload) as Hq. unfold quiet in Hq.
  rewrite Hb in Hq; cbn in Hq; subst. now apply connect_next in H.
Qed.

Lemma load_settings_next (w : World) (t : list call) (settings : value) :
  load_settings w = (t, Next settings) ->
  t = [GhGetContents config_path] /\
  merged_settings w = inr settings /\
  has_nonempty settings "jira_project_key" = true /\
  has_nonempty settings "status_mapping" = true.
Proof.
  unfold load_settings, merged_settings, has_nonempty. intros H. step_next H.
  destruct (gh_config w) as [|[e|loaded]].
  - discriminate H.
  - destruct e; discriminate H.
  - repeat step_next H. subst. rewrite Hv; cbn. rewrite Hv0, Hv1, Hv2.
    apply negb_false_iff in Hc, Hc0. auto.
Qed.

Lemma resolve_next (w : World) (payload : dict) (t : list call)
  (issue : Issue) (settings : value) :
  resolve w payload = (t, Next (issue, settings)) ->
  exists t0,
    identify w payload = (t0, Next issue) /\
    load_settings w = ([GhGetContents config_path], Next settings) /\
    t = t0 ++ [GhGetContents config_path].
Proof.
  unfold resolve. intros H. repeat step_next H.
  injection H as -> ->. subst.
  destruct (load_settings_next _ _ _ Hb0) as (-> & _).
  exists t0. rewrite app_nil_r. auto.
Qed.

Lemma label_gate_next (w : World) (settings : value) (payload : dict)
  (t : list call) (payload_labels : list string) :
  label_gate w settings payload = (t, Next payload_labels) ->
  t = [] /\
  payload_labels_of w payload = inr payload_labels /\
  exists allowed_labels,
    allowed_labels_of w settings = inr allowed_labels /\
    label_blocked allowed_labels payload_labels = false.
Proof.
  intros H. pose proof (label_gate_quiet w settings payload) as Hq.
  unfold quiet in Hq. rewrite H in Hq; cbn in Hq; subst.
  unfold label_gate in H. repeat step_next H. subst. eauto.
Qed.

Lemma locate_next (w : World) (settings : value) (issue : Issue) (t : list call)
  (found : list Ticket) :
  locate w settings issue = (t, Next found) ->
  exists key,
    getitem settings "jira_project_key" = inr key /\
    t = [JiraSearchIssues key (html_url issue)] /\
    found = jira_search_issues w key (html_url issue).
Proof.
  unfold locate. intros H. repeat step_next H. subst. eauto.
Qed.

(** The field set of lines 221-237: the components are the only thing the
    Jira client is asked for. *)
Lemma map_fields_next (w : World) (settings : value) (labels : list string)
  (issue : Issue) (t : list call) (issue_dict : dict) :
  map_fields w settings labels issue = (t, Next issue_dict) ->
  exists key configured,
    getitem settings "jira_project_key" = inr key /\
    getitem settings "components" = inr configured /\
    if truthy configured
    then exists items,
        iterate configured = inr items /\
        t = [JiraProjectComponents key] /\
        dict_get "components" issue_dict =
          Some (VList (map_components items (jira_project_components w key)))
    else t = [].
Proof.
  unfold map_fields. intros H. do 6 step_next H.
  assert (Ht0 : t0 = []).
  { destruct (truthy v2); repeat step_next Hb; now subst. }
  subst t0.
  step_next H; exists v1, v4; (split; [assumption|]); (split; [assumption|]);
    rewrite Hc.
  - repeat step_next H. subst.
    assert (v5 = v1) by congruence. assert (v6 = v4) by congruence. subst.
    exists v7. rewrite dict_get_set_same. auto.
  - step_next H. now subst.
Qed.

Lemma prepare_next (w : World) (payload : dict) (t : list call) (ctx : Context) :
  prepare w payload = (t, Next ctx) ->
  exists issue labels t0 t1 t2,
    resolve w payload = (t0, Next (issue, ctx_settings ctx)) /\
    label_gate w (ctx_settings ctx) payload = ([], Next labels) /\
    locate w (ctx_settings ctx) issue = (t1, Next (ctx_existing_issues ctx)) /\
    map_fields w (ctx_settings ctx) labels issue = (t2, Next (ctx_issue_dict ctx)) /\
    t = t0 ++ t1 ++ t2.
Proof.
  unfold prepare. intros H. do 4 step_next H.
  destruct v as [issue settings]; cbn [fst snd] in *.
  repeat step_next H. subst; cbn [ctx_settings ctx_issue_dict ctx_existing_issues].
  destruct (label_gate_next _ _ _ _ _ Hb0) as (-> & _).
  rewrite app_nil_r. cbn [app]. eauto 10.
Qed.

(** *** How a stopped block ends the handler *)

Lemma bot_event_prepare_return (w : World) (payload : dict) (t : list call)
  (r : response) :
  prepare w payload = (t, Return r) -> bot_event w payload = (t, inr r).
Proof. unfold bot_event. intros H. now rewrite (bind_return _ _ _ _ H). Qed.

Lemma bot_event_prepare_raise (w : World) (payload : dict) (t : list call) (e : exn) :
  prepare w payload = (t, Raise e) -> bot_event w payload = (t, inl e).
Proof. unfold bot_event. intros H. now rewrite (bind_raise _ _ _ _ H). Qed.

Lemma prepare_resolve_return (w : World) (payload : dict) (t : list call)
  (r : response) :
  resolve w payload = (t, Return r) -> prepare w payload = (t, Return r).
Proof. unfold prepare. intros H. now rewrite (bind_return _ _ _ _ H). Qed.

Lemma prepare_resolve_raise (w : World) (payload : dict) (t : list call) (e : exn) :
  resolve w payload = (t, Raise e) -> prepare w payload = (t, Raise e).
Proof. unfold prepare. intros H. now rewrite (bind_raise _ _ _ _ H). Qed.

Lemma resolve_identify_return (w : World) (payload : dict) (t : list call)
  (r : response) :
  identify w payload = (t, Return r) -> resolve w payload = (t, Return r).
Proof. unfold resolve. intros H. now rewrite (bind_return _ _ _ _ H). Qed.

Lemma resolve_identify_raise (w : World) (payload : dict) (t : list call) (e : exn) :
  identify w payload = (t, Raise e) -> resolve w payload = (t, Raise e).
Proof. unfold resolve. intros H. now rewrite (bind_raise _ _ _ _ H). Qed.

Lemma identify_classify_return (w : World) (payload : dict) (t : list call)
  (r : response) :
  classify w payload = (t, Return r) -> identify w payload = (t, Return r).
Proof. unfold identify. intros H. now rewrite (bind_return _ _ _ _ H). Qed.

Lemma identify_classify_raise (w : World) (payload : dict) (t : list call) (e : exn) :
  classify w payload = (t, Raise e) -> identify w payload = (t, Raise e).
Proof. unfold identify. intros H. now rewrite (bind_raise _ _ _ _ H). Qed.

Lemma getitem_dict_mem (d : dict) (key : string) (v : value) :
  getitem (VDict d) key = inr v -> dict_mem key d = true.
Proof. unfold getitem, dict_mem. now destruct (dict_get key d). Qed.

Lemma dict_mem_false_getitem (d : dict) (key : string) :
  dict_mem key d = false -> getitem (VDict d) key = inl (KeyError key).
Proof. unfold getitem, dict_mem. now destruct (dict_get key d). Qed.

(** *** Strings and case *)

Lemma is_upper_lower_ascii (c : ascii) : is_upper (lower_ascii c) = false.
Proof. destruct c as [[] [] [] [] [] [] [] []]; reflexivity. Qed.



Lemma lower_ascii_fixed (c : ascii) : is_upper c = false -> lower_ascii c = c.
Proof. unfold lower_ascii. now intros ->. Qed.

Lemma is_upper_bounds (c : ascii) :
  is_upper c = true -> 65 <= nat_of_ascii c <= 90.
Proof.
  unfold is_upper. intros H. apply andb_true_iff in H as [H1 H2].
  apply Nat.leb_le in H1, H2. lia.
Qed.

Lemma lower_ascii_upper (c : ascii) :
  is_upper c = true -> nat_of_ascii (lower_ascii c) = nat_of_ascii c + 32.
Proof.
  intros H. unfold lower_ascii. rewrite H.
  apply nat_ascii_embedding. apply is_upper_bounds in H. lia.
Qed.

Lemma nat_of_ascii_inj (a b : ascii) : nat_of_ascii a = nat_of_ascii b -> a = b.
Proof.
  intros H. rewrite <- (ascii_nat_embedding a), <- (ascii_nat_embedding b).
  now rewrite H.
Qed.

Lemma same_letter_lower (a b : ascii) :
  same_letter a b <-> lower_ascii a = lower_ascii b.
Proof.
  split.
  - intros [->|[[Ha Hb]|[Hb Ha]]]; [reflexivity| |].
    + assert (E : b = lower_ascii a).
      { apply nat_of_ascii_inj. now rewrite lower_ascii_upper. }
      rewrite E. symmetry. apply lower_ascii_fixed, is_upper_lower_ascii.
    + assert (E : a = lower_ascii b).
      { apply nat_of_ascii_inj. now rewrite lower_ascii_upper. }
      rewrite E. apply lower_ascii_fixed, is_upper_lower_ascii.
  - intros H. unfold same_letter.
    destruct (is_upper a) eqn:Ha, (is_upper b) eqn:Hb.
    + left. apply nat_of_ascii_inj.
      apply (f_equal nat_of_ascii) in H.
      rewrite !lower_ascii_upper in H by assumption. lia.
    + right; left. split; [reflexivity|].
      rewrite (lower_ascii_fixed b Hb) in H. rewrite <- H.
      now apply lower_ascii_upper.
    + right; right. split; [reflexivity|].
      rewrite (lower_ascii_fixed a Ha) in H. rewrite H.
      now apply lower_ascii_upper.
    + left. now rewrite !lower_ascii_fixed in H.
Qed.

Lemma eq_ci_ascii_lower (s t : string) :
  eq_ci s t <-> ascii_lower s = ascii_lower t.
Proof.
  split.
  - induction 1 as [|a b s t Hab _ IH]; cbn [ascii_lower]; [reflexivity|].
    apply same_letter_lower in Hab. now rewrite Hab, IH.
  - revert t. induction s as [|a s IH]; intros [|b t]; cbn [ascii_lower]; intros H;
      try discriminate; [constructor|].
    injection H as Hab Hst. constructor; [now apply same_letter_lower|auto].
Qed.

(** Strings that differ in the case of ASCII letters only are the same
    once lowercased. *)
Lemma eq_ci_lower (w : World) (s t : string) : eq_ci s t -> ci_match w s t.
Proof.
  intros H. apply eq_ci_ascii_lower in H. unfold ci_match, lower. now rewrite H.
Qed.

Lemma str_in_In (s : string) (l : list string) : str_in s l = true <-> In s l.
Proof.
  unfold str_in. rewrite existsb_exists. split.
  - intros (x & Hx & E). apply String.eqb_eq in E. now subst.
  - intros H. exists s. split; [assumption|apply String.eqb_refl].
Qed.

(** *** List comprehensions *)

Lemma map_result_total {A B : Type} (f : A -> result B) (g : A -> B) (l : list A) :
  Forall (fun x => f x = inr (g x)) l -> map_result f l = inr (map g l).
Proof.
  induction 1 as [|x r Hx _ IH]; cbn; [reflexivity|]. now rewrite Hx, IH.
Qed.


(** The labels the gate hands on are the names of the issue's labels,
    lowercased and in their order. *)
Lemma payload_labels_of_names (w : World) (payload : dict) (names : list string) :
  issue_label_names payload names ->
  payload_labels_of w payload = inr (map (lower w) names).
Proof.
  intros (payload_issue & items & Hi & Hl & Hn).
  unfold payload_labels_of. rewrite Hi; cbn. rewrite Hl; cbn. clear Hi Hl.
  induction Hn as [|item name items names Hitem _ IH]; cbn; [reflexivity|].
  rewrite Hitem; cbn. now rewrite IH.
Qed.


(** *** The issue type over a mapping *)

Lemma issue_type_loop_dict (m : dict) (labels : list string) :
  issue_type_loop (VDict m) labels = inr (first_mapped_label m labels).
Proof.
  induction labels as [|label rest IH]; cbn; [reflexivity|].
  unfold dict_mem. destruct (dict_get label m); [reflexivity|exact IH].
Qed.

Lemma resolve_issue_type_dict (settings : value) (m : dict) (labels : list string) :
  getitem settings "label_mapping" = inr (VDict m) ->
  resolve_issue_type settings labels = inr (first_mapped_label m labels).
Proof.
  unfold resolve_issue_type. intros ->. cbn [rbind truthy].
  destruct m; [|apply issue_type_loop_dict].
  induction labels; cbn; auto.
Qed.



(** ** The properties *)

(** C6. Settings-merge idempotence: for every pair of settings mappings [a]
    and [b] (Python dicts, so no key occurs twice in [b] at any depth),
    merging [b] into the result of merging [b] into [a] gives the result of
    merging [b] into [a] once. *)
Theorem merge_dicts_idempotent (a b : dict) :
  wf_dict b -> merge_dicts (merge_dicts a b) b = merge_dicts a b.
Proof.
  intros Hwf. exact (proj1 (merge_stable_all (VDict b) Hwf) a).
Qed.

Lemma merge_dicts_idempotent_witness :
  let a := [("settings",
             VDict [("jira_project_key", VStr "PRJ");
                    ("status_mapping", VDict [("opened", VStr "To Do")])])] in
  merge_dicts (merge_dicts a example_defaults) example_defaults =
  merge_dicts a example_defaults.
Proof.
  apply merge_dicts_idempotent.
  unfold wf_dict, example_defaults; cbn.
  repeat (constructor || split || (cbn; intuition discriminate)).
Defined.

(** C3 (amended). Fail-closed classification, as far as the code has it:
    for every payload in which the [issue] key is absent and the [action]
    key is present with the value "opened", the handler returns "ok" and
    calls no collaborator. *)
Theorem opened_without_issue_ignored (w : World) (payload : dict) :
  dict_mem "issue" payload = false ->
  getitem (VDict payload) "action" = inr (VStr "opened") ->
  bot_event w payload = ([], inr RespOk).
Proof.
  intros Hissue Haction.
  apply bot_event_prepare_return, prepare_resolve_return,
    resolve_identify_return, identify_classify_return.
  unfold classify. rewrite Hissue, (getitem_dict_mem _ _ _ Haction).
  cbn [andb negb]. now rewrite (bind_lift_inr _ _ _ Haction).
Qed.

Lemma opened_without_issue_ignored_witness :
  bot_event (example_world ConfigNotFound [])
    (example_payload [("action", VStr "opened"); ("pull_request", VDict [])]) =
  ([], inr RespOk).
Proof.
  apply opened_without_issue_ignored; reflexivity.
Defined.

(** C3, the claim as stated fails: a "closed" event without the [issue]
    key is not ignored; the handler connects to GitHub and then raises
    [KeyError] at [payload["issue"]]. *)
Lemma closed_without_issue_raises :
  let payload := example_payload [("action", VStr "closed")] in
  dict_mem "issue" payload = false /\
  bot_event (example_world (example_config []) []) payload =
  ([GhGetInstallationToken (VStr "acme") (VStr "widgets");
    GhGetRepo (VStr "acme") (VStr "widgets")],
   inl (KeyError "issue")).
Proof. split; reflexivity. Qed.

(** The guard of line 130 reads [payload["action"]] exactly when a key is
    missing: without the [action] key every payload raises [KeyError]. *)
Lemma missing_action_raises (w : World) (payload : dict) :
  dict_mem "action" payload = false ->
  bot_event w payload = ([], inl (KeyError "action")).
Proof.
  intros Haction.
  apply bot_event_prepare_raise, prepare_resolve_raise,
    resolve_identify_raise, identify_classify_raise.
  unfold classify. rewrite Haction. cbn [andb negb].
  now rewrite (bind_lift_inl _ _ _ (dict_mem_false_getitem _ _ Haction)).
Qed.

(** Lines 214-219 on the names of the issue's labels: the names are
    lowercased before they are looked up, the keys of [label_mapping] are
    taken as they are written. *)
Lemma issue_type_of_names (w : World) (payload : dict) (names : list string)
  (settings label_mapping : value) :
  issue_label_names payload names ->
  getitem settings "label_mapping" = inr label_mapping ->
  payload_labels_of w payload = inr (map (lower w) names) /\
  (truthy label_mapping = false ->
   resolve_issue_type settings (map (lower w) names) = inr (VStr "Bug")) /\
  (forall m, label_mapping = VDict m ->
   resolve_issue_type settings (map (lower w) names) =
   inr (first_mapped_label m (map (lower w) names))).
Proof.
  intros Hnames Hmap. split; [now apply payload_labels_of_names|]. split.
  - intros Hfalse. unfold resolve_issue_type. rewrite Hmap. cbn [rbind].
    now rewrite Hfalse.
  - intros m ->. now apply resolve_issue_type_dict.
Qed.

(** C8. The claim holds the first label present in [label_mapping] to give
    the issue type; the code misses a label that is a key of the mapping as
    it is written.  The repository allows the label "Feature" and maps it
    to "Story"; an issue labelled "Feature" is opened and has no ticket.
    The gate of lines 191-193 lowercases both sides and lets the issue
    through; the lookup of lines 216-218 lowercases the label and not the
    key, finds no "feature", and the ticket is created with the type "Bug". *)
Lemma capitalised_label_gets_default_type :
  let label_mapping := [("Feature", VStr "Story")] in
  let w := example_world
             (example_config [("labels", VList [VStr "Feature"]);
                              ("label_mapping", VDict label_mapping)]) [] in
  let payload := issue_event "opened" ["Feature"] in
  issue_label_names payload ["Feature"] /\
  dict_mem "Feature" label_mapping = true /\
  first_mapped_label label_mapping ["Feature"] = VStr "Story" /\
  (exists settings,
     merged_settings w = inr settings /\
     getitem settings "labels" = inr (VList [VStr "Feature"]) /\
     getitem settings "label_mapping" = inr (VDict label_mapping) /\
     label_gate w settings payload = ([], Next ["feature"]) /\
     resolve_issue_type settings ["feature"] = inr (VStr "Bug")) /\
  (exists fields,
     filter is_create (fst (bot_event w payload)) = [JiraCreateIssue fields] /\
     dict_get "issuetype" fields = Some (VDict [("name", VStr "Bug")])).
Proof.
  cbv zeta. split; [|split; [reflexivity|split; [reflexivity|split]]].
  - exists (snd (issue_field ["Feature"])), (map label_object ["Feature"]).
    repeat split; repeat constructor.
  - vm_compute. eexists. repeat split; reflexivity.
  - vm_compute. eexists. split; reflexivity.
Qed.



(** *** Traces *)

Lemma bind_trace_prefix {A B : Type} (m : M A) (f : A -> M B) :
  exists rest, fst (bind m f) = fst m ++ rest.
Proof.
  unfold bind. destruct m as [t [a|r|e]]; cbn.
  - now exists (fst (f a)).
  - exists []. now rewrite app_nil_r.
  - exists []. now rewrite app_nil_r.
Qed.

Lemma has_nonempty_getitem (settings : value) (key : string) :
  has_nonempty settings key = true ->
  exists v, getitem settings key = inr v /\ truthy v = true.
Proof.
  unfold has_nonempty. destruct (getitem settings key) as [e|v]; [discriminate|].
  eauto.
Qed.

Lemma locate_run (w : World) (settings key : value) (issue : Issue) :
  getitem settings "jira_project_key" = inr key ->
  locate w settings issue =
  ([JiraSearchIssues key (html_url issue)],
   Next (jira_search_issues w key (html_url issue))).
Proof. unfold locate. intros H. now rewrite (bind_lift_inr _ _ _ H). Qed.

(** What the handler has called when it reaches the reconciliation, and
    the components it has mapped. *)
Lemma prepare_trace (w : World) (payload : dict) (t : list call) (ctx : Context) :
  prepare w payload = (t, Next ctx) ->
  exists owner repo_name number issue key configured,
    getitem (ctx_settings ctx) "jira_project_key" = inr key /\
    getitem (ctx_settings ctx) "components" = inr configured /\
    t = [GhGetInstallationToken owner repo_name; GhGetRepo owner repo_name;
         GhGetIssue number; GhGetContents config_path;
         JiraSearchIssues key (html_url issue)] ++
        (if truthy configured then [JiraProjectComponents key] else []) /\
    (truthy configured = true ->
     exists items,
       iterate configured = inr items /\
       dict_get "components" (ctx_issue_dict ctx) =
         Some (VList (map_components items (jira_project_components w key)))).
Proof.
  intros H.
  destruct (prepare_next _ _ _ _ H)
    as (issue & labels & t0 & t1 & t2 & Hres & _ & Hloc & Hmap & ->).
  destruct (resolve_next _ _ _ _ _ Hres) as (t0' & Hid & _ & ->).
  destruct (identify_next _ _ _ _ Hid) as (owner & repo_name & number & ->).
  destruct (locate_next _ _ _ _ _ Hloc) as (key & Hkey & -> & _).
  destruct (map_fields_next _ _ _ _ _ _ Hmap) as (key' & configured & Hkey' & Hconf & Hc).
  assert (key' = key) by congruence; subst key'.
  exists owner, repo_name, number, issue, key, configured.
  split; [assumption|]. split; [assumption|].
  destruct (truthy configured).
  - destruct Hc as (items & Hit & -> & Hget). split; [reflexivity|]. eauto.
  - subst t2. split; [reflexivity|]. discriminate.
Qed.

Lemma prepare_trace_kinds (w : World) (payload : dict) (t : list call) (ctx : Context) :
  prepare w payload = (t, Next ctx) ->
  filter is_ticket_change t = [] /\ filter is_create t = [] /\
  filter is_issue_comment t = [].
Proof.
  intros H.
  destruct (prepare_trace _ _ _ _ H)
    as (owner & repo_name & number & issue & key & configured & _ & _ & -> & _).
  now destruct (truthy configured).
Qed.

Lemma resolve_trace_kinds (w : World) (payload : dict) (t : list call)
  (issue : Issue) (settings : value) :
  resolve w payload = (t, Next (issue, settings)) ->
  filter is_jira_call t = [] /\ filter is_issue_comment t = [].
Proof.
  intros H. destruct (resolve_next _ _ _ _ _ H) as (t0 & Hid & _ & ->).
  destruct (identify_next _ _ _ _ Hid) as (owner & repo_name & number & ->).
  split; reflexivity.
Qed.

(** *** The label gate on lists of names *)

Lemma map_result_str_lower (w : World) (names : list string) :
  map_result (str_lower w) (map VStr names) = inr (map (lower w) names).
Proof.
  induction names as [|name rest IH]; cbn; [reflexivity|]. now rewrite IH.
Qed.

Lemma allowed_labels_of_names (w : World) (settings : value) (allowed : list string) :
  getitem settings "labels" = inr (VList (map VStr allowed)) ->
  allowed_labels_of w settings = inr (map (lower w) allowed).
Proof.
  unfold allowed_labels_of. intros ->. cbn. apply map_result_str_lower.
Qed.

Lemma label_blocked_no_match (w : World) (allowed names : list string) :
  allowed <> [] ->
  (forall name a, In name names -> In a allowed -> ~ ci_match w name a) ->
  label_blocked (map (lower w) allowed) (map (lower w) names) = true.
Proof.
  intros Hne Hno. unfold label_blocked.
  destruct allowed as [|a0 rest]; [congruence|]. cbn [map].
  change (lower w a0 :: map (lower w) rest) with (map (lower w) (a0 :: rest)).
  apply negb_true_iff. apply not_true_is_false. intros Hex.
  apply existsb_exists in Hex as (label & Hin & Hmem).
  apply str_in_In in Hmem.
  apply in_map_iff in Hin as (name & <- & Hname).
  apply in_map_iff in Hmem as (a & Heq & Ha).
  apply (Hno name a Hname Ha). unfold ci_match. now symmetry.
Qed.

Lemma label_gate_run (w : World) (settings : value) (payload : dict)
  (allowed_labels payload_labels : list string) :
  allowed_labels_of w settings = inr allowed_labels ->
  payload_labels_of w payload = inr payload_labels ->
  label_gate w settings payload =
  if label_blocked allowed_labels payload_labels then ([], Return RespOk)
  else ([], Next payload_labels).
Proof.
  unfold label_gate. intros Ha Hp.
  rewrite (bind_lift_inr _ _ _ Ha), (bind_lift_inr _ _ _ Hp).
  now destruct (label_blocked allowed_labels payload_labels).
Qed.

(** C7. Label gating: for every event that reaches the label gate, with
    [settings.labels] a list of names and the issue's labels named
    [names]: if the allow-list is non-empty and no label of the issue
    matches an allowed label under the case-insensitive comparison (the two
    are different once both are lowercased), the handler returns "ok" and
    has called neither Jira nor the issue's comments; if the allow-list is
    empty, the gate lets the event through and the handler goes on to the
    ticket search. *)
Theorem label_gating (w : World) (payload : dict) (t0 : list call)
  (issue : Issue) (settings : value) (allowed names : list string) :
  resolve w payload = (t0, Next (issue, settings)) ->
  getitem settings "labels" = inr (VList (map VStr allowed)) ->
  issue_label_names payload names ->
  (allowed <> [] ->
   (forall name a, In name names -> In a allowed -> ~ ci_match w name a) ->
   bot_event w payload = (t0, inr RespOk) /\
   filter is_jira_call t0 = [] /\ filter is_issue_comment t0 = []) /\
  (allowed = [] ->
   label_gate w settings payload = ([], Next (map (lower w) names)) /\
   exists key rest,
     fst (bot_event w payload) = t0 ++ JiraSearchIssues key (html_url issue) :: rest).
Proof.
  intros Hres Hallowed Hnames.
  pose proof (allowed_labels_of_names w _ _ Hallowed) as Ha.
  pose proof (payload_labels_of_names w _ _ Hnames) as Hp.
  pose proof (label_gate_run _ _ _ _ _ Ha Hp) as Hgate.
  split.
  - intros Hne Hno. rewrite (label_blocked_no_match _ _ _ Hne Hno) in Hgate.
    split; [|now apply (resolve_trace_kinds _ _ _ _ _ Hres)].
    apply bot_event_prepare_return. unfold prepare.
    rewrite (bind_next _ _ _ _ Hres). cbn [fst snd].
    rewrite (bind_return _ _ _ _ Hgate). cbn [fst snd]. now rewrite app_nil_r.
  - intros ->. cbn [map label_blocked] in Hgate. split; [exact Hgate|].
    destruct (resolve_next _ _ _ _ _ Hres) as (t0' & _ & Hload & _).
    destruct (load_settings_next _ _ _ Hload) as (_ & _ & Hkey & _).
    apply has_nonempty_getitem in Hkey as (key & Hkey & _).
    exists key. unfold bot_event, finish. cbn [fst].
    destruct (bind_trace_prefix (prepare w payload)
                (fun ctx => reconcile w payload ctx)) as [r ->].
    unfold prepare. rewrite (bind_next _ _ _ _ Hres). cbn [fst snd].
    rewrite (bind_next _ _ _ _ Hgate). cbn [fst snd].
    rewrite (bind_next _ _ _ _ (locate_run w _ _ issue Hkey)). cbn [fst snd app].
    rewrite <- app_assoc. cbn [app]. eexists. reflexivity.
Qed.

Lemma label_gating_witness :
  bot_event (example_world (example_config [("labels", VList [VStr "c"])]) [])
    (issue_event "opened" ["a"; "b"]) =
  ([GhGetInstallationToken (VStr "acme") (VStr "widgets");
    GhGetRepo (VStr "acme") (VStr "widgets");
    GhGetIssue (VInt 7); GhGetContents config_path],
   inr RespOk).
Proof.
  pose (w := example_world (example_config [("labels", VList [VStr "c"])]) []).
  pose (payload := issue_event "opened" ["a"; "b"]).
  destruct (label_gating w payload
              [GhGetInstallationToken (VStr "acme") (VStr "widgets");
               GhGetRepo (VStr "acme") (VStr "widgets");
               GhGetIssue (VInt 7); GhGetContents config_path]
              example_issue
              (VDict [("jira_project_key", VStr "PRJ"); ("labels", VList [VStr "c"]);
                      ("status_mapping",
                       VDict [("opened", VStr "Untriaged"); ("closed", VStr "done")]);
                      ("components", VList []);
                      ("add_gh_comment", VBool false);
                      ("sync_description", VBool true);
                      ("sync_comments", VBool true);
                      ("epic_key", VStr "");
                      ("label_mapping", VDict [])])
              ["c"] ["a"; "b"]) as [Hblocked _].
  - reflexivity.
  - reflexivity.
  - exists (snd (issue_field ["a"; "b"])), (map label_object ["a"; "b"]).
    repeat split; repeat constructor.
  - apply Hblocked; [discriminate|].
    intros name a Hname Ha Hci.
    destruct Ha as [<-|[]]. destruct Hname as [<-|[<-|[]]]; discriminate Hci.
Defined.

(** *** Configuration errors *)

Lemma load_settings_user_fixable (w : World) (text : string) :
  user_fixable w text ->
  load_settings w =
  ([GhGetContents config_path; GhCreateComment text], Return RespOk).
Proof.
  unfold load_settings, merged_settings.
  intros [Hc|Hc|settings v Hm Hkey Hv|settings v v' Hm Hkey Hv Hsm Hv'].
  - now rewrite Hc.
  - now rewrite Hc.
  - unfold merged_settings in Hm.
    destruct (gh_config w) as [|[e|loaded]]; try discriminate.
    destruct (merge_default_settings loaded (DEFAULT_SETTINGS w)) as [e|merged] eqn:E;
      [discriminate|]. cbn [rbind] in Hm.
    rewrite bind_call, (bind_lift_inr _ _ _ eq_refl), (bind_lift_inr _ _ _ Hm),
      (bind_lift_inr _ _ _ Hkey), Hv.
    reflexivity.
  - unfold merged_settings in Hm.
    destruct (gh_config w) as [|[e|loaded]]; try discriminate.
    destruct (merge_default_settings loaded (DEFAULT_SETTINGS w)) as [e|merged] eqn:E;
      [discriminate|]. cbn [rbind] in Hm.
    rewrite bind_call, (bind_lift_inr _ _ _ eq_refl), (bind_lift_inr _ _ _ Hm),
      (bind_lift_inr _ _ _ Hkey), Hv. cbn [negb].
    rewrite (bind_lift_inr _ _ _ Hsm), Hv'.
    reflexivity.
Qed.

(** C5 (amended). UserFixable errors are non-fatal and terminal: for every
    event that reaches the configuration, if the config file is not found,
    or loading it raises [ScannerError], or the merged settings mapping
    holds an empty [jira_project_key], or a non-empty one and an empty
    [status_mapping], then the handler returns "ok", has posted exactly one
    comment on the issue, the diagnostic, and has made no Jira call. *)
Theorem user_fixable_config_errors (w : World) (payload : dict) (t0 : list call)
  (issue : Issue) (text : string) :
  identify w payload = (t0, Next issue) ->
  user_fixable w text ->
  bot_event w payload =
    (t0 ++ [GhGetContents config_path; GhCreateComment text], inr RespOk) /\
  filter is_jira_call (fst (bot_event w payload)) = [] /\
  filter is_issue_comment (fst (bot_event w payload)) = [GhCreateComment text].
Proof.
  intros Hid Hfix.
  assert (Hrun : bot_event w payload =
                 (t0 ++ [GhGetContents config_path; GhCreateComment text], inr RespOk)).
  { apply bot_event_prepare_return, prepare_resolve_return. unfold resolve.
    rewrite (bind_next _ _ _ _ Hid). cbn [fst snd].
    now rewrite (bind_return _ _ _ _ (load_settings_user_fixable _ _ Hfix)). }
  rewrite Hrun. split; [reflexivity|].
  destruct (identify_next _ _ _ _ Hid) as (owner & repo_name & number & ->).
  split; reflexivity.
Qed.

Lemma user_fixable_config_errors_witness :
  let w := example_world
             (ConfigContent (inr (VDict [("settings", VDict [("labels", VList [])])]))) [] in
  bot_event w (issue_event "opened" []) =
  ([GhGetInstallationToken (VStr "acme") (VStr "widgets");
    GhGetRepo (VStr "acme") (VStr "widgets"); GhGetIssue (VInt 7);
    GhGetContents config_path; GhCreateComment msg_no_project_key],
   inr RespOk).
Proof.
  intros w.
  refine (proj1 (user_fixable_config_errors w (issue_event "opened" [])
                   [GhGetInstallationToken (VStr "acme") (VStr "widgets");
                    GhGetRepo (VStr "acme") (VStr "widgets"); GhGetIssue (VInt 7)]
                   example_issue msg_no_project_key _ _)).
  - reflexivity.
  - apply (NoProjectKey w
             (VDict (("labels", VList []) ::
                     ("jira_project_key", VStr "") ::
                     ("status_mapping",
                      VDict [("opened", VStr "Untriaged"); ("closed", VStr "done")]) ::
                     ("components", VList []) ::
                     ("add_gh_comment", VBool false) ::
                     ("sync_description", VBool true) ::
                     ("sync_comments", VBool true) ::
                     ("epic_key", VStr "") ::
                     ("label_mapping", VDict []) :: nil))
             (VStr "")); reflexivity.
Defined.

(** C5, the claim as stated fails: a config file that holds only the line
    [settings:] loads as a mapping whose [settings] is null; the merged
    settings then lack a project key, and the handler raises [TypeError]
    at [settings["jira_project_key"]] without a comment on the issue. *)
Lemma null_settings_raises :
  let w := example_world (ConfigContent (inr (VDict [("settings", VNone)]))) [] in
  merged_settings w = inr VNone /\
  has_nonempty VNone "jira_project_key" = false /\
  bot_event w (issue_event "opened" []) =
  ([GhGetInstallationToken (VStr "acme") (VStr "widgets");
    GhGetRepo (VStr "acme") (VStr "widgets"); GhGetIssue (VInt 7);
    GhGetContents config_path],
   inl TypeError).
Proof. repeat split. Qed.

(** Loading a file can fail with an error that is not a [ScannerError];
    the handler does not catch it. *)
Lemma other_yaml_error_raises (w : World) (payload : dict) (t0 : list call)
  (issue : Issue) :
  identify w payload = (t0, Next issue) ->
  gh_config w = ConfigContent (inl YAMLError) ->
  bot_event w payload = (t0 ++ [GhGetContents config_path], inl YAMLError).
Proof.
  intros Hid Hc.
  apply bot_event_prepare_raise, prepare_resolve_raise. unfold resolve.
  rewrite (bind_next _ _ _ _ Hid). cbn [fst snd].
  unfold load_settings. now rewrite Hc.
Qed.

(** *** The reconciliation, branch by branch *)

Lemma finish_return (t : list call) (r : response) :
  finish (t, Return r) = (t, inr r).
Proof. reflexivity. Qed.

Lemma bot_event_reconcile (w : World) (payload : dict) (t tr : list call)
  (ctx : Context) (o : outcome response) :
  prepare w payload = (t, Next ctx) ->
  reconcile w payload ctx = (tr, o) ->
  bot_event w payload = finish (t ++ tr, o).
Proof.
  unfold bot_event. intros Hp Hr. rewrite (bind_next _ _ _ _ Hp). now rewrite Hr.
Qed.

(** Lines 267-279 on an event that is not a comment to sync: no call is
    made, and "ok" is returned as soon as [sync_comments] can be read. *)
Lemma sync_comment_other_action (w : World) (payload : dict) (ctx : Context)
  (existing_issues : list Ticket) (action : value) :
  getitem (VDict payload) "action" = inr action ->
  eq_str action "created" = false ->
  fst (sync_comment w payload ctx existing_issues) = [] /\
  (forall sync_comments,
     getitem (ctx_settings ctx) "sync_comments" = inr sync_comments ->
     sync_comment w payload ctx existing_issues = ([], Return RespOk)).
Proof.
  intros Ha Hc. unfold sync_comment, is_comment_sync.
  destruct (getitem (ctx_settings ctx) "sync_comments") as [e|sc]; cbn [rbind].
  - split; [reflexivity|discriminate].
  - rewrite Ha. cbn [rbind]. rewrite Hc. cbn [andb].
    destruct (truthy sc); (split; [reflexivity|]); intros _ _; reflexivity.
Qed.

Lemma sync_comment_created (w : World) (payload : dict) (ctx : Context)
  (first : Ticket) (others : list Ticket)
  (sync_comments comment sender login : value) (text : string) :
  getitem (VDict payload) "action" = inr (VStr "created") ->
  getitem (ctx_settings ctx) "sync_comments" = inr sync_comments ->
  getitem (VDict payload) "comment" = inr comment ->
  getitem comment "body" = inr (VStr text) ->
  getitem (VDict payload) "sender" = inr sender ->
  getitem sender "login" = inr login ->
  sync_comment w payload ctx (first :: others) =
  ((if truthy sync_comments then [JiraAddComment first login (render w text)] else []),
   Return RespOk).
Proof.
  intros Ha Hs Hc Hb Hsender Hlogin. unfold sync_comment, is_comment_sync.
  rewrite Hs. cbn [rbind]. destruct (truthy sync_comments); [|reflexivity].
  rewrite Ha. cbn [rbind]. rewrite (getitem_dict_mem _ _ _ Hc).
  rewrite (bind_lift_inr _ _ true eq_refl).
  rewrite (bind_lift_inr _ _ _ Hc), (bind_lift_inr _ _ _ Hb).
  rewrite (bind_lift_inr _ _ (render w text) eq_refl).
  rewrite (bind_lift_inr _ _ first eq_refl).
  rewrite (bind_lift_inr _ _ _ Hsender), (bind_lift_inr _ _ _ Hlogin).
  reflexivity.
Qed.

(** Lines 242-251 when no ticket was found and the event is not "closed". *)
Lemma create_or_update_creates (w : World) (payload : dict) (ctx : Context)
  (action : value) :
  ctx_existing_issues ctx = [] ->
  getitem (VDict payload) "action" = inr action ->
  eq_str action "closed" = false ->
  let new_issue := jira_create_issue w (ctx_issue_dict ctx) in
  match getitem (ctx_settings ctx) "add_gh_comment" with
  | inl e =>
      create_or_update w payload ctx = ([JiraCreateIssue (ctx_issue_dict ctx)], Raise e)
  | inr add_gh_comment =>
      create_or_update w payload ctx =
      (JiraCreateIssue (ctx_issue_dict ctx) ::
       (if truthy add_gh_comment
        then [GhCreateComment (gh_comment_body_template (permalink new_issue))]
        else []),
       Next [new_issue])
  end.
Proof.
  intros Hex Ha Hc new_issue. unfold create_or_update. rewrite Hex.
  rewrite (bind_lift_inr _ _ _ Ha), Hc, bind_call.
  destruct (getitem (ctx_settings ctx) "add_gh_comment") as [e|add_c] eqn:E.
  - now rewrite (bind_lift_inl _ _ _ eq_refl).
  - rewrite (bind_lift_inr _ _ _ eq_refl). now destruct (truthy add_c).
Qed.

(** Lines 253-265 for an action that changes nothing on the ticket. *)
Lemma create_or_update_existing_other (w : World) (payload : dict) (ctx : Context)
  (jira_issue : Ticket) (rest : list Ticket) (action : value) :
  ctx_existing_issues ctx = jira_issue :: rest ->
  getitem (VDict payload) "action" = inr action ->
  eq_str action "closed" = false ->
  eq_str action "reopened" = false ->
  eq_str action "edited" = false ->
  create_or_update w payload ctx = ([], Next (jira_issue :: rest)).
Proof.
  intros Hex Ha H1 H2 H3. unfold create_or_update. rewrite Hex.
  rewrite (bind_lift_inr _ _ _ Ha), H1.
  rewrite (bind_lift_inr _ _ _ Ha), H2.
  now rewrite (bind_lift_inr _ _ _ Ha), H3.
Qed.

Lemma classify_next (w : World) (payload : dict) (t : list call) (u : unit) :
  classify w payload = (t, Next u) ->
  exists sender login,
    getitem (VDict payload) "sender" = inr sender /\
    getitem sender "login" = inr login.
Proof.
  unfold classify. intros H. do 4 step_next H. eauto.
Qed.

Lemma prepare_sender (w : World) (payload : dict) (t : list call) (ctx : Context) :
  prepare w payload = (t, Next ctx) ->
  exists sender login,
    getitem (VDict payload) "sender" = inr sender /\
    getitem sender "login" = inr login.
Proof.
  intros H.
  destruct (prepare_next _ _ _ _ H) as (issue & labels & t0 & t1 & t2 & Hres & _).
  destruct (resolve_next _ _ _ _ _ Hres) as (t0' & Hid & _).
  unfold identify in Hid. step_next Hid. destruct v. eapply classify_next; eauto.
Qed.

(** *** Components on edit *)

Lemma dict_set_set (k : string) (v1 v2 : value) (d : dict) :
  dict_set k v2 (dict_set k v1 d) = dict_set k v2 d.
Proof.
  induction d as [|[k' v'] r IH]; cbn.
  - now rewrite String.eqb_refl.
  - destruct (String.eqb k k') eqn:E; cbn; rewrite E; [reflexivity|]. now rewrite IH.
Qed.

Lemma append_components_run (names : list string) (issue_dict : dict) (l : list value) :
  dict_get "components" issue_dict = Some (VList l) ->
  append_components issue_dict names =
  inr (dict_set "components" (VList (l ++ map name_entry names)) issue_dict).
Proof.
  revert issue_dict l. induction names as [|name rest IH]; intros issue_dict l Hget.
  - cbn. rewrite app_nil_r. now rewrite dict_set_get_same.
  - cbn [append_components]. unfold append_component, getitem. rewrite Hget.
    cbn [rbind]. rewrite (IH _ (l ++ [VDict [("name", VStr name)]])).
    + rewrite dict_set_set, <- app_assoc. reflexivity.
    + apply dict_get_set_same.
Qed.

Lemma map_name_of_entries (names : list string) :
  map name_of (map name_entry names) = map VStr names.
Proof. induction names as [|n r IH]; cbn; [reflexivity|]. now rewrite IH. Qed.

(** ** The properties of the reconciliation *)

(** C4 (amended). Close-without-create: for every "closed" event that
    reaches the reconciliation with no ticket found, the handler returns
    "ok" without another call; no ticket is created, no create, transition,
    update or comment call is made on Jira and no comment is posted on the
    issue.  The Jira calls made are the search of the locator and, when
    [settings.components] is non-empty, one listing of the project's
    components. *)
Theorem close_without_create (w : World) (payload : dict) (t0 : list call)
  (ctx : Context) :
  prepare w payload = (t0, Next ctx) ->
  getitem (VDict payload) "action" = inr (VStr "closed") ->
  ctx_existing_issues ctx = [] ->
  bot_event w payload = (t0, inr RespOk) /\
  filter is_ticket_change t0 = [] /\
  filter is_issue_comment t0 = [] /\
  exists issue key configured,
    getitem (ctx_settings ctx) "jira_project_key" = inr key /\
    getitem (ctx_settings ctx) "components" = inr configured /\
    filter is_jira_call t0 =
      JiraSearchIssues key (html_url issue) ::
      (if truthy configured then [JiraProjectComponents key] else []).
Proof.
  intros Hp Ha Hex.
  assert (Hr : reconcile w payload ctx = ([], Return RespOk)).
  { unfold reconcile, create_or_update. rewrite Hex.
    now rewrite (bind_lift_inr _ _ _ Ha). }
  rewrite (bot_event_reconcile _ _ _ _ _ _ Hp Hr), app_nil_r, finish_return.
  split; [reflexivity|].
  destruct (prepare_trace_kinds _ _ _ _ Hp) as (Hchange & _ & Hcomment).
  split; [assumption|]. split; [assumption|].
  destruct (prepare_trace _ _ _ _ Hp)
    as (owner & repo_name & number & issue & key & configured & Hkey & Hconf & -> & _).
  exists issue, key, configured. split; [assumption|]. split; [assumption|].
  now destruct (truthy configured).
Qed.

Lemma close_without_create_witness :
  bot_event (example_world (example_config []) []) (issue_event "closed" []) =
  ([GhGetInstallationToken (VStr "acme") (VStr "widgets");
    GhGetRepo (VStr "acme") (VStr "widgets"); GhGetIssue (VInt 7);
    GhGetContents config_path;
    JiraSearchIssues (VStr "PRJ") (html_url example_issue)],
   inr RespOk).
Proof.
  pose (w := example_world (example_config []) []).
  pose (payload := issue_event "closed" []).
  destruct (prepare w payload) as [t [ctx|r|e]] eqn:Hp;
    try (vm_compute in Hp; discriminate).
  assert (Ht : t = [GhGetInstallationToken (VStr "acme") (VStr "widgets");
                    GhGetRepo (VStr "acme") (VStr "widgets"); GhGetIssue (VInt 7);
                    GhGetContents config_path;
                    JiraSearchIssues (VStr "PRJ") (html_url example_issue)]).
  { vm_compute in Hp. now injection Hp as <- _. }
  assert (Hex : ctx_existing_issues ctx = []).
  { vm_compute in Hp. now injection Hp as _ <-. }
  rewrite <- Ht.
  exact (proj1 (close_without_create w payload t ctx Hp eq_refl Hex)).
Defined.

(** C4, the claim as stated fails: with a component configured, a "closed"
    event with no ticket found still asks Jira for the components of the
    project. *)
Lemma closed_event_lists_components :
  let w := example_world (example_config [("components", VList [VStr "backend"])]) [] in
  let payload := issue_event "closed" [] in
  jira_search_issues w (VStr "PRJ") (html_url example_issue) = [] /\
  bot_event w payload =
  ([GhGetInstallationToken (VStr "acme") (VStr "widgets");
    GhGetRepo (VStr "acme") (VStr "widgets"); GhGetIssue (VInt 7);
    GhGetContents config_path;
    JiraSearchIssues (VStr "PRJ") (html_url example_issue);
    JiraProjectComponents (VStr "PRJ")],
   inr RespOk).
Proof. split; reflexivity. Qed.

(** C1. Idempotent ticket creation: when an "opened" event is delivered
    twice, the first delivery finding no ticket and the second one finding
    the ticket the first one created, the first delivery makes exactly one
    create call and the second makes no call after the search: no create,
    no other change of a ticket, and it returns "ok". *)
Theorem idempotent_ticket_creation (w1 w2 : World) (payload : dict)
  (t1 t2 : list call) (ctx1 ctx2 : Context) (rest : list Ticket) :
  getitem (VDict payload) "action" = inr (VStr "opened") ->
  prepare w1 payload = (t1, Next ctx1) ->
  ctx_existing_issues ctx1 = [] ->
  prepare w2 payload = (t2, Next ctx2) ->
  ctx_existing_issues ctx2 = jira_create_issue w1 (ctx_issue_dict ctx1) :: rest ->
  filter is_create (fst (bot_event w1 payload)) = [JiraCreateIssue (ctx_issue_dict ctx1)] /\
  fst (bot_event w2 payload) = t2 /\
  filter is_create (fst (bot_event w2 payload)) = [] /\
  filter is_ticket_change (fst (bot_event w2 payload)) = [] /\
  (forall sync_comments,
     getitem (ctx_settings ctx2) "sync_comments" = inr sync_comments ->
     bot_event w2 payload = (t2, inr RespOk)).
Proof.
  intros Ha Hp1 Hex1 Hp2 Hex2.
  destruct (prepare_trace_kinds _ _ _ _ Hp1) as (_ & Hc1 & _).
  destruct (prepare_trace_kinds _ _ _ _ Hp2) as (Hch2 & Hc2 & _).
  split.
  - pose proof (create_or_update_creates w1 payload ctx1 _ Hex1 Ha eq_refl) as Hcu.
    cbv zeta in Hcu. unfold bot_event, finish. cbn [fst].
    rewrite (bind_next _ _ _ _ Hp1). cbn [fst]. unfold reconcile.
    rewrite filter_app, Hc1. cbn [app].
    destruct (getitem (ctx_settings ctx1) "add_gh_comment") as [e|add_c].
    + now rewrite (bind_raise _ _ _ _ Hcu).
    + rewrite (bind_next _ _ _ _ Hcu). cbn [fst].
      destruct (sync_comment_other_action w1 payload ctx1
                  [jira_create_issue w1 (ctx_issue_dict ctx1)] _ Ha eq_refl) as (-> & _).
      rewrite app_nil_r. now destruct (truthy add_c).
  - pose proof (create_or_update_existing_other w2 payload ctx2 _ _ _ Hex2 Ha
                  eq_refl eq_refl eq_refl) as Hcu.
    destruct (sync_comment_other_action w2 payload ctx2
                (jira_create_issue w1 (ctx_issue_dict ctx1) :: rest) _ Ha eq_refl)
      as (Hs & Hok).
    assert (Hfst : fst (bot_event w2 payload) = t2).
    { unfold bot_event, finish. cbn [fst]. rewrite (bind_next _ _ _ _ Hp2).
      cbn [fst]. unfold reconcile. rewrite (bind_next _ _ _ _ Hcu). cbn [fst app].
      rewrite Hs. apply app_nil_r. }
    rewrite Hfst. split; [reflexivity|]. split; [assumption|]. split; [assumption|].
    intros sc Hsc.
    assert (Hr : reconcile w2 payload ctx2 = ([], Return RespOk)).
    { unfold reconcile. rewrite (bind_next _ _ _ _ Hcu). cbn [fst snd app].
      now rewrite (Hok sc Hsc). }
    now rewrite (bot_event_reconcile _ _ _ _ _ _ Hp2 Hr), app_nil_r, finish_return.
Qed.

Lemma idempotent_ticket_creation_witness :
  let w1 := example_world (example_config []) [] in
  let w2 := example_world (example_config []) [example_ticket []] in
  let payload := issue_event "opened" [] in
  List.length (filter is_create (fst (bot_event w1 payload))) = 1%nat /\
  filter is_create (fst (bot_event w2 payload)) = [] /\
  snd (bot_event w2 payload) = inr RespOk.
Proof.
  intros w1 w2 payload.
  assert (H : exists t1 ctx1 t2 ctx2,
             prepare w1 payload = (t1, Next ctx1) /\
             ctx_existing_issues ctx1 = [] /\
             prepare w2 payload = (t2, Next ctx2) /\
             ctx_existing_issues ctx2 = [jira_create_issue w1 (ctx_issue_dict ctx1)] /\
             getitem (ctx_settings ctx2) "sync_comments" = inr (VBool true)).
  { vm_compute. do 4 eexists. repeat split; reflexivity. }
  destruct H as (t1 & ctx1 & t2 & ctx2 & Hp1 & Hex1 & Hp2 & Hex2 & Hsc).
  destruct (idempotent_ticket_creation w1 w2 payload t1 t2 ctx1 ctx2 []
              eq_refl Hp1 Hex1 Hp2 Hex2) as (H1 & _ & H3 & _ & H5).
  split; [now rewrite H1|]. split; [exact H3|]. now rewrite (H5 _ Hsc).
Defined.

(** C9. A "created" comment event that passes all gates and for which no
    ticket is found first creates a ticket from the mapped fields, posts
    the ticket link on the issue when [add_gh_comment] is set, and, when
    [sync_comments] is set, appends the rendered comment to the ticket just
    created, which is the first element of the list of matches. *)
Theorem first_comment_creates_ticket (w : World) (payload : dict) (t0 : list call)
  (ctx : Context) (add_gh_comment sync_comments comment : value) (text : string) :
  prepare w payload = (t0, Next ctx) ->
  getitem (VDict payload) "action" = inr (VStr "created") ->
  ctx_existing_issues ctx = [] ->
  getitem (ctx_settings ctx) "add_gh_comment" = inr add_gh_comment ->
  getitem (ctx_settings ctx) "sync_comments" = inr sync_comments ->
  getitem (VDict payload) "comment" = inr comment ->
  getitem comment "body" = inr (VStr text) ->
  let new_issue := jira_create_issue w (ctx_issue_dict ctx) in
  exists sender login,
    getitem (VDict payload) "sender" = inr sender /\
    getitem sender "login" = inr login /\
    bot_event w payload =
    (t0 ++
     JiraCreateIssue (ctx_issue_dict ctx) ::
     (if truthy add_gh_comment
      then [GhCreateComment (gh_comment_body_template (permalink new_issue))]
      else []) ++
     (if truthy sync_comments
      then [JiraAddComment new_issue login (render w text)]
      else []),
     inr RespOk).
Proof.
  intros Hp Ha Hex Hadd Hsync Hc Hb new_issue.
  destruct (prepare_sender _ _ _ _ Hp) as (sender & login & Hsender & Hlogin).
  exists sender, login. split; [assumption|]. split; [assumption|].
  pose proof (create_or_update_creates w payload ctx _ Hex Ha eq_refl) as Hcu.
  cbv zeta in Hcu. rewrite Hadd in Hcu.
  eapply bot_event_reconcile in Hp as ->.
  2:{ unfold reconcile. rewrite (bind_next _ _ _ _ Hcu). cbn [fst snd].
      rewrite (sync_comment_created w payload ctx _ [] _ _ _ _ _
                 Ha Hsync Hc Hb Hsender Hlogin).
      cbn [fst snd]. reflexivity. }
  rewrite finish_return. reflexivity.
Qed.

Lemma first_comment_creates_ticket_witness :
  let w := example_world (example_config []) [] in
  exists t0,
    bot_event w (comment_event "created" [] "LGTM") =
    (t0 ++ [JiraCreateIssue (ctx_issue_dict
                               match snd (prepare w (comment_event "created" [] "LGTM")) with
                               | Next ctx => ctx
                               | _ => Build_Context VNone [] [] VNone VNone
                               end);
            JiraAddComment (example_ticket []) (VStr "alice") "LGTM"],
     inr RespOk).
Proof.
  intros w. set (payload := comment_event "created" [] "LGTM").
  assert (H : exists t0 ctx,
             prepare w payload = (t0, Next ctx) /\
             ctx_existing_issues ctx = [] /\
             getitem (ctx_settings ctx) "add_gh_comment" = inr (VBool false) /\
             getitem (ctx_settings ctx) "sync_comments" = inr (VBool true)).
  { vm_compute. do 2 eexists. repeat split; reflexivity. }
  destruct H as (t0 & ctx & Hp & Hex & Hadd & Hsync).
  destruct (first_comment_creates_ticket w payload t0 ctx _ _
              (VDict [("body", VStr "LGTM")]) "LGTM" Hp eq_refl Hex Hadd Hsync
              eq_refl eq_refl) as (sender & login & Hsender & Hlogin & Hrun).
  exists t0. rewrite Hp. cbn [snd]. rewrite Hrun.
  vm_compute in Hsender. injection Hsender as <-.
  vm_compute in Hlogin. injection Hlogin as <-.
  reflexivity.
Defined.

(** C2 (amended). Component merge on edit: for every "edited" event with an
    existing ticket and a non-empty [settings.components], the handler
    updates the first ticket found with the mapped fields in which the
    component list is the newly mapped components followed by the
    components of the existing ticket; as a set of names this is the union
    of the two, and every other field is the mapped one. *)
Theorem component_merge_on_edit (w : World) (payload : dict) (t0 : list call)
  (ctx : Context) (jira_issue : Ticket) (rest : list Ticket) (configured : value) :
  prepare w payload = (t0, Next ctx) ->
  getitem (VDict payload) "action" = inr (VStr "edited") ->
  ctx_existing_issues ctx = jira_issue :: rest ->
  getitem (ctx_settings ctx) "components" = inr configured ->
  truthy configured = true ->
  exists key items fields,
    getitem (ctx_settings ctx) "jira_project_key" = inr key /\
    iterate configured = inr items /\
    component_names (ctx_issue_dict ctx) =
      map name_of (map_components items (jira_project_components w key)) /\
    fst (bot_event w payload) = t0 ++ [JiraUpdate jira_issue fields] /\
    component_names fields =
      component_names (ctx_issue_dict ctx) ++ map VStr (components jira_issue) /\
    (forall name, In name (component_names fields) <->
       In name (component_names (ctx_issue_dict ctx)) \/
       In name (map VStr (components jira_issue))) /\
    (forall field, field <> "components" ->
       dict_get field fields = dict_get field (ctx_issue_dict ctx)) /\
    (forall sync_comments,
       getitem (ctx_settings ctx) "sync_comments" = inr sync_comments ->
       snd (bot_event w payload) = inr RespOk).
Proof.
  intros Hp Ha Hex Hconf Htruthy.
  destruct (prepare_trace _ _ _ _ Hp)
    as (owner & repo_name & number & issue & key & configured' & Hkey & Hconf' & _ & Hmapped).
  assert (configured' = configured) by congruence; subst configured'.
  destruct (Hmapped Htruthy) as (items & Hit & Hget).
  set (mapped := map_components items (jira_project_components w key)) in *.
  set (fields := dict_set "components"
                   (VList (mapped ++ map name_entry (components jira_issue)))
                   (ctx_issue_dict ctx)).
  exists key, items, fields.
  assert (Hnames : component_names (ctx_issue_dict ctx) = map name_of mapped).
  { unfold component_names. now rewrite Hget. }
  assert (Hfields : component_names fields =
                    component_names (ctx_issue_dict ctx) ++ map VStr (components jira_issue)).
  { rewrite Hnames. unfold component_names, fields. rewrite dict_get_set_same.
    now rewrite map_app, map_name_of_entries. }
  assert (Hcu : create_or_update w payload ctx =
                ([JiraUpdate jira_issue fields], Next (jira_issue :: rest))).
  { unfold create_or_update. rewrite Hex.
    rewrite (bind_lift_inr _ _ _ Ha). cbn [eq_str String.eqb Ascii.eqb Bool.eqb].
    rewrite (bind_lift_inr _ _ _ Ha). cbn [eq_str String.eqb Ascii.eqb Bool.eqb].
    rewrite (bind_lift_inr _ _ _ Ha). cbn [eq_str String.eqb Ascii.eqb Bool.eqb].
    rewrite (bind_lift_inr _ _ _ Hconf), Htruthy.
    rewrite (bind_lift_inr _ _ _ (append_components_run _ _ _ Hget)).
    reflexivity. }
  destruct (sync_comment_other_action w payload ctx (jira_issue :: rest) _ Ha eq_refl)
    as (Hs & Hok).
  repeat split; try assumption.
  - unfold bot_event, finish. cbn [fst]. rewrite (bind_next _ _ _ _ Hp). cbn [fst].
    unfold reconcile. rewrite (bind_next _ _ _ _ Hcu). cbn [fst]. now rewrite Hs.
  - rewrite Hfields. apply in_app_or.
  - rewrite Hfields. apply in_or_app.
  - intros field Hne. unfold fields. now apply dict_get_set_other.
  - intros sc Hsc.
    assert (Hr : reconcile w payload ctx = ([JiraUpdate jira_issue fields], Return RespOk)).
    { unfold reconcile. rewrite (bind_next _ _ _ _ Hcu). cbn [fst snd].
      now rewrite (Hok sc Hsc). }
    now rewrite (bot_event_reconcile _ _ _ _ _ _ Hp Hr).
Qed.

Lemma component_merge_on_edit_witness :
  let w := example_world (example_config [("components", VList [VStr "backend"])])
             [example_ticket ["ui"]] in
  map component_names (update_fields (fst (bot_event w (issue_event "edited" [])))) =
  [[VStr "backend"; VStr "ui"]].
Proof.
  intros w. set (payload := issue_event "edited" []).
  assert (H : exists t0 ctx,
             prepare w payload = (t0, Next ctx) /\
             ctx_existing_issues ctx = [example_ticket ["ui"]] /\
             getitem (ctx_settings ctx) "components" = inr (VList [VStr "backend"]) /\
             component_names (ctx_issue_dict ctx) = [VStr "backend"] /\
             update_fields t0 = []).
  { vm_compute. do 2 eexists. repeat split; reflexivity. }
  destruct H as (t0 & ctx & Hp & Hex & Hconf & Hnames & Ht0).
  destruct (component_merge_on_edit w payload t0 ctx _ _ _ Hp eq_refl Hex Hconf eq_refl)
    as (key & items & fields & _ & _ & _ & Hrun & Hfields & _).
  rewrite Hrun. clear - Hfields Hnames Ht0. rewrite Hnames in Hfields.
  induction t0 as [|c t0 IH]; [cbn; now rewrite Hfields|].
  destruct c; cbn in Ht0 |- *; try discriminate; auto.
Defined.

(** C2, the claim as stated fails: when the configured component is one the
    ticket already has, the update carries its name twice. *)
Lemma edit_repeats_component :
  let w := example_world (example_config [("components", VList [VStr "backend"])])
             [example_ticket ["backend"]] in
  map component_names (update_fields (fst (bot_event w (issue_event "edited" [])))) =
  [[VStr "backend"; VStr "backend"]] /\
  ~ NoDup [VStr "backend"; VStr "backend"].
Proof.
  split; [reflexivity|]. intros H. inversion H as [|x l Hin _]; subst.
  apply Hin. now left.
Qed.

(** ** Further properties of [merge_dicts] *)

Lemma dict_mem_merge_entry_other (m : dict) (k k' : string) (v : value) :
  k <> k' -> dict_mem k (merge_entry m k' v) = dict_mem k m.
Proof.
  intros Hne. unfold dict_mem. now rewrite merge_entry_get_other.
Qed.

Lemma dict_keys_set (k : string) (v x : value) (d : dict) :
  dict_get k d = Some x -> dict_keys (dict_set k v d) = dict_keys d.
Proof.
  induction d as [|[k' v'] r IH]; cbn; [discriminate|].
  destruct (String.eqb k k') eqn:E; intros H; cbn; [reflexivity|].
  f_equal. now apply IH.
Qed.

Lemma dict_keys_merge_entry (m : dict) (k : string) (v : value) :
  dict_keys (merge_entry m k v) =
  dict_keys m ++ (if dict_mem k m then [] else [k]).
Proof.
  unfold merge_entry, dict_mem.
  destruct (dict_get k m) as [x|] eqn:E.
  - rewrite app_nil_r. destruct x; try reflexivity.
    destruct v; try reflexivity. now apply dict_keys_set with (x := VDict d).
  - unfold dict_keys. now rewrite map_app.
Qed.

Lemma wf_dict_Forall (d : dict) :
  wf_dict d <-> NoDup (dict_keys d) /\ Forall (fun kv => wf_value (snd kv)) d.
Proof.
  induction d as [|[k v] r IH].
  - unfold wf_dict; cbn. intuition constructor.
  - rewrite wf_dict_cons, IH. unfold dict_keys; cbn [map fst].
    rewrite NoDup_cons_iff, Forall_cons_iff. cbn [snd]. tauto.
Qed.

Lemma wf_dict_get (d : dict) (k : string) (x : value) :
  wf_dict d -> dict_get k d = Some x -> wf_value x.
Proof.
  intros Hwf Hget. apply wf_dict_Forall in Hwf as [_ Hall].
  apply dict_get_In in Hget. rewrite Forall_forall in Hall.
  apply (Hall (k, x) Hget).
Qed.

Lemma wf_dict_set (d : dict) (k : string) (v x : value) :
  wf_dict d -> dict_get k d = Some x -> wf_value v -> wf_dict (dict_set k v d).
Proof.
  intros Hwf Hget Hv. apply wf_dict_Forall. apply wf_dict_Forall in Hwf as [Hnd Hall].
  split; [now rewrite (dict_keys_set _ _ _ _ Hget)|].
  clear Hnd Hget. induction d as [|[k' v'] r IH]; cbn.
  - constructor; [exact Hv|constructor].
  - inversion Hall as [|? ? Hv' Hr]; subst.
    destruct (String.eqb k k'); constructor; auto.
Qed.

Lemma NoDup_snoc {A : Type} (l : list A) (x : A) :
  NoDup l -> ~ In x l -> NoDup (l ++ [x]).
Proof.
  induction l as [|y r IH]; cbn; intros Hnd Hx.
  - constructor; [tauto|constructor].
  - apply NoDup_cons_iff in Hnd as [Hy Hr]. constructor.
    + rewrite in_app_iff. cbn. intuition congruence.
    + apply IH; tauto.
Qed.

Lemma wf_dict_snoc (d : dict) (k : string) (v : value) :
  wf_dict d -> dict_get k d = None -> wf_value v -> wf_dict (d ++ [(k, v)]).
Proof.
  intros Hwf Hget Hv. apply wf_dict_Forall. apply wf_dict_Forall in Hwf as [Hnd Hall].
  apply dict_get_None_iff in Hget. split.
  - unfold dict_keys in *. rewrite map_app. cbn [map fst].
    apply NoDup_snoc; assumption.
  - apply Forall_app. split; [assumption|]. constructor; [exact Hv|constructor].
Qed.




(** X2. The keys after a merge, in the order of the dict: those of [d1] in
    their order, followed by the keys only [d2] has, in the order of [d2]. *)
Theorem merge_dicts_keys (d1 d2 : dict) :
  NoDup (dict_keys d2) ->
  dict_keys (merge_dicts d1 d2) =
  dict_keys d1 ++ filter (fun k => negb (dict_mem k d1)) (dict_keys d2).
Proof.
  revert d1. induction d2 as [|[k v] r IH]; intros d1 Hnd.
  - rewrite merge_dicts_nil. cbn. now rewrite app_nil_r.
  - unfold dict_keys in Hnd; cbn [map fst] in Hnd.
    apply NoDup_cons_iff in Hnd as [Hk Hr].
    rewrite merge_dicts_cons, (IH _ Hr), dict_keys_merge_entry.
    change (dict_keys ((k, v) :: r)) with (k :: dict_keys r). cbn [filter].
    assert (Hsame : filter (fun k0 => negb (dict_mem k0 (merge_entry d1 k v))) (dict_keys r) =
                    filter (fun k0 => negb (dict_mem k0 d1)) (dict_keys r)).
    { apply filter_ext_in. intros k0 Hin. f_equal.
      apply dict_mem_merge_entry_other. intros ->. contradiction. }
    rewrite Hsame, <- app_assoc. now destruct (dict_mem k d1).
Qed.

Lemma merge_dicts_keys_witness :
  dict_keys (merge_dicts [("b", VInt 1)] [("a", VInt 2); ("b", VInt 3); ("c", VNone)]) =
  ["b"; "a"; "c"].
Proof.
  apply (merge_dicts_keys [("b", VInt 1)] [("a", VInt 2); ("b", VInt 3); ("c", VNone)]).
  repeat constructor; cbn; intuition discriminate.
Defined.

Lemma merge_entry_wf (m : dict) (k : string) (v : value) :
  (forall a b, v = VDict b -> wf_dict a -> wf_dict (merge_dicts a b)) ->
  wf_dict m -> wf_value v -> wf_dict (merge_entry m k v).
Proof.
  intros Hrec Hm Hv. unfold merge_entry.
  destruct (dict_get k m) as [x|] eqn:E.
  - destruct x; try assumption. destruct v; try assumption.
    apply wf_dict_set with (x := VDict d); try assumption.
    apply Hrec; [reflexivity|]. apply (wf_dict_get _ _ _ Hm E).
  - now apply wf_dict_snoc.
Qed.

Lemma merge_dicts_wf_value (v : value) :
  wf_value v ->
  match v with
  | VDict b => forall a, wf_dict a -> wf_dict (merge_dicts a b)
  | _ => True
  end.
Proof.
  induction v as [| | | | |b IH] using value_nested_ind; try (intros _; exact I).
  intros Hwf. induction b as [|[k v] r IHr]; intros a Ha.
  - now rewrite merge_dicts_nil.
  - apply wf_dict_cons in Hwf as (Hk & Hv & Hr).
    inversion IH as [|? ? IHv IHrest]; subst; cbn [snd] in IHv.
    rewrite merge_dicts_cons. apply IHr; try assumption.
    apply merge_entry_wf; try assumption.
    intros a' b' -> Ha'. now apply (IHv Hv).
Qed.

(** X3. Merging two dicts that hold every key once, at every depth, gives
    such a dict: a merge never stores a key twice. *)
Theorem merge_dicts_wf (d1 d2 : dict) :
  wf_dict d1 -> wf_dict d2 -> wf_dict (merge_dicts d1 d2).
Proof.
  intros H1 H2. now apply (merge_dicts_wf_value (VDict d2) H2).
Qed.

Lemma merge_dicts_wf_witness :
  wf_dict (merge_dicts [("settings", VDict [("labels", VList [])])] example_defaults).
Proof.
  apply merge_dicts_wf.
  - unfold wf_dict; cbn. repeat (constructor || split || (cbn; intuition discriminate)).
  - unfold wf_dict, example_defaults; cbn.
    repeat (constructor || split || (cbn; intuition discriminate)).
Defined.

Lemma merge_dicts_fresh (d2 pre : dict) :
  NoDup (dict_keys (pre ++ d2)) -> merge_dicts pre d2 = pre ++ d2.
Proof.
  revert pre. induction d2 as [|[k v] r IH]; intros pre Hnd.
  - rewrite merge_dicts_nil. now rewrite app_nil_r.
  - rewrite merge_dicts_cons.
    assert (Hnone : dict_get k pre = None).
    { apply dict_get_None_iff. intros Hin.
      unfold dict_keys in Hnd, Hin. rewrite map_app in Hnd. cbn [map fst] in Hnd.
      apply NoDup_remove_2 in Hnd. apply Hnd, in_or_app. now left. }
    unfold merge_entry. rewrite Hnone.
    rewrite IH; rewrite <- app_assoc; [reflexivity|exact Hnd].
Qed.

(** X4. Merging into an empty dict copies the second dict, key by key in
    its order: a config file that holds an empty mapping gets exactly the
    defaults. *)
Theorem merge_dicts_into_empty (d2 : dict) :
  NoDup (dict_keys d2) -> merge_dicts [] d2 = d2.
Proof.
  intros Hnd. now apply (merge_dicts_fresh d2 []).
Qed.

Lemma merge_dicts_into_empty_witness :
  merge_dicts [] example_defaults = example_defaults.
Proof.
  apply merge_dicts_into_empty. repeat constructor; cbn; intuition discriminate.
Defined.

(** ** The settings the handler works with *)



(** ** The signature of the request *)

Lemma bind_ret {A B : Type} (a : A) (f : A -> M B) : bind (ret a) f = f a.
Proof. unfold bind, ret; cbn. now destruct (f a). Qed.

Lemma is_ascii_expected_signature (w : World) (secret body : string) :
  is_ascii (expected_signature w secret body) = is_ascii (hmac_sha256_hex w secret body).
Proof. reflexivity. Qed.

Lemma expected_signature_nonempty (w : World) (secret body : string) :
  String.eqb (expected_signature w secret body) "" = false.
Proof. reflexivity. Qed.

(** X6. A request without the signature header, with an empty one, or with
    one that is not the signature of the body under the webhook secret is
    answered with status 403, and no collaborator is called. *)
Theorem unauthorized_request_rejected (w : World) (request : Request) (payload : dict) :
  x_hub_signature_256 request = None \/
  x_hub_signature_256 request = Some "" \/
  (exists secret header,
     WEBHOOK_SECRET w = Some secret /\
     x_hub_signature_256 request = Some header /\
     is_ascii header = true /\
     is_ascii (hmac_sha256_hex w secret (request_body request)) = true /\
     header <> expected_signature w secret (request_body request)) ->
  bot w request payload = ([], inl (HTTPException 403)).
Proof.
  unfold bot, verify_signature.
  intros [H|[H|(secret & header & Hs & Hh & Ha & Hd & Hne)]];
    [now rewrite H|now rewrite H|].
  rewrite Hh. destruct (String.eqb header "") eqn:E; [reflexivity|]. rewrite Hs.
  fold (expected_signature w secret (request_body request)).
  unfold compare_digest. rewrite is_ascii_expected_signature, Hd, Ha. cbn [andb].
  rewrite (bind_lift_inr _ _ _ eq_refl).
  assert (Hneq : String.eqb (expected_signature w secret (request_body request)) header
                 = false).
  { apply String.eqb_neq. congruence. }
  now rewrite Hneq.
Qed.

Lemma unauthorized_request_rejected_witness :
  bot (example_world (example_config []) []) (example_request (Some "sha256=ff"))
    (issue_event "opened" []) =
  ([], inl (HTTPException 403)).
Proof.
  apply unauthorized_request_rejected. right. right.
  exists "secret", "sha256=ff". repeat split; try reflexivity. discriminate.
Defined.

(** X7. A request that carries the signature of its body is handled as the
    event it holds: the check adds no call and changes no answer. *)
Theorem signed_request_handled (w : World) (request : Request) (payload : dict)
  (secret : string) :
  WEBHOOK_SECRET w = Some secret ->
  x_hub_signature_256 request =
    Some (expected_signature w secret (request_body request)) ->
  is_ascii (hmac_sha256_hex w secret (request_body request)) = true ->
  bot w request payload = bot_event w payload.
Proof.
  intros Hs Hh Hd. unfold bot, bot_event, verify_signature.
  rewrite Hh, expected_signature_nonempty, Hs.
  fold (expected_signature w secret (request_body request)).
  unfold compare_digest. rewrite is_ascii_expected_signature, Hd. cbn [andb].
  rewrite (bind_lift_inr _ _ _ eq_refl), String.eqb_refl.
  now rewrite bind_ret.
Qed.

Lemma signed_request_handled_witness :
  bot (example_world (example_config []) []) (example_request (Some "sha256=00"))
    (issue_event "opened" []) =
  bot_event (example_world (example_config []) []) (issue_event "opened" []).
Proof.
  apply (signed_request_handled _ _ _ "secret"); reflexivity.
Defined.

(** X8. Nothing is done for a request that is not signed: whatever the
    header, the secret and the payload are, a request whose header is not
    the signature of its body makes no call and gets an exception. *)
Theorem unsigned_request_makes_no_call (w : World) (request : Request) (payload : dict) :
  ~ signed w request ->
  fst (bot w request payload) = [] /\
  exists e, snd (bot w request payload) = inl e.
Proof.
  intros Hns. unfold bot, verify_signature.
  destruct (x_hub_signature_256 request) as [header|] eqn:Hh; [|cbn; eauto].
  destruct (String.eqb header ""); [cbn; eauto|].
  destruct (WEBHOOK_SECRET w) as [secret|] eqn:Hs; [|cbn; eauto].
  fold (expected_signature w secret (request_body request)).
  unfold compare_digest.
  destruct (is_ascii (expected_signature w secret (request_body request)) &&
            is_ascii header); [|cbn; eauto].
  rewrite (bind_lift_inr _ _ _ eq_refl).
  destruct (String.eqb (expected_signature w secret (request_body request)) header)
    eqn:E; [|cbn; eauto].
  exfalso. apply Hns. exists secret. split; [assumption|].
  apply String.eqb_eq in E. now rewrite E.
Qed.

Lemma unsigned_request_makes_no_call_witness :
  fst (bot (example_world (example_config []) []) (example_request None)
         (issue_event "opened" [])) = [].
Proof.
  apply unsigned_request_makes_no_call.
  intros (secret & _ & H). discriminate H.
Defined.

(** ** The events the handler does not act on *)

Lemma eq_str_true (v : value) (s : string) : eq_str v s = true -> v = VStr s.
Proof.
  destruct v; cbn; try discriminate. intros H. apply String.eqb_eq in H. now subst.
Qed.

(** Lines 130-143 on a payload whose [action] and sender can be read. *)
Lemma classify_run (w : World) (payload : dict) (action sender login : value) :
  getitem (VDict payload) "action" = inr action ->
  getitem (VDict payload) "sender" = inr sender ->
  getitem sender "login" = inr login ->
  classify w payload =
  ([], if negb (dict_mem "issue" payload) && eq_str action "opened" then Return RespOk
       else if eq_getenv login (BOT_NAME w) then Return RespBotIgnored
       else if eq_str action "deleted" || eq_str action "unlabeled" then Return RespOk
       else if eq_str action "edited" && dict_mem "comment" payload then Return RespOk
       else Next tt).
Proof.
  intros Ha Hs Hl. unfold classify. rewrite (getitem_dict_mem _ _ _ Ha). cbn [andb].
  assert (Hrest :
    (sender <~ getitem (VDict payload) "sender" ;;
     login <~ getitem sender "login" ;;
     if eq_getenv login (BOT_NAME w) then done RespBotIgnored
     else
       action <~ getitem (VDict payload) "action" ;;
       if eq_str action "deleted" || eq_str action "unlabeled" then done RespOk
       else
         action <~ getitem (VDict payload) "action" ;;
         if eq_str action "edited" && dict_mem "comment" payload then done RespOk
         else ret tt) =
    ([], if eq_getenv login (BOT_NAME w) then Return RespBotIgnored
         else if eq_str action "deleted" || eq_str action "unlabeled" then Return RespOk
         else if eq_str action "edited" && dict_mem "comment" payload then Return RespOk
         else @Next unit tt)).
  { rewrite (bind_lift_inr _ _ _ Hs), (bind_lift_inr _ _ _ Hl).
    destruct (eq_getenv login (BOT_NAME w)); [reflexivity|].
    rewrite (bind_lift_inr _ _ _ Ha).
    destruct (eq_str action "deleted" || eq_str action "unlabeled"); [reflexivity|].
    rewrite (bind_lift_inr _ _ _ Ha).
    now destruct (eq_str action "edited" && dict_mem "comment" payload). }
  destruct (dict_mem "issue" payload); cbn [negb andb].
  - rewrite bind_ret. exact Hrest.
  - rewrite (bind_lift_inr _ _ _ Ha), bind_ret.
    destruct (eq_str action "opened"); [reflexivity|]. exact Hrest.
Qed.

Lemma classify_no_action (w : World) (payload : dict) :
  dict_mem "action" payload = false ->
  classify w payload = ([], Raise (KeyError "action")).
Proof.
  intros Haction. unfold classify. rewrite Haction. cbn [andb negb].
  now rewrite (bind_lift_inl _ _ _ (dict_mem_false_getitem _ _ Haction)).
Qed.

Lemma bot_event_classify_return (w : World) (payload : dict) (r : response) :
  classify w payload = ([], Return r) -> bot_event w payload = ([], inr r).
Proof.
  intros H.
  now apply bot_event_prepare_return, prepare_resolve_return,
    resolve_identify_return, identify_classify_return.
Qed.

Lemma bot_event_classify_raise (w : World) (payload : dict) (e : exn) :
  classify w payload = ([], Raise e) -> bot_event w payload = ([], inl e).
Proof.
  intros H.
  now apply bot_event_prepare_raise, prepare_resolve_raise,
    resolve_identify_raise, identify_classify_raise.
Qed.

(** X9. An event sent by the bot itself never reaches GitHub or Jira: no
    call is made, whatever else the payload holds, and when the payload has
    an [action] the answer is the bot notice (or "ok" for an "opened" event
    without an issue, which line 130 answers first). *)
Theorem bot_sender_ignored (w : World) (payload : dict) (sender login : value) :
  getitem (VDict payload) "sender" = inr sender ->
  getitem sender "login" = inr login ->
  eq_getenv login (BOT_NAME w) = true ->
  fst (bot_event w payload) = [] /\
  (forall action,
     getitem (VDict payload) "action" = inr action ->
     snd (bot_event w payload) =
     inr (if negb (dict_mem "issue" payload) && eq_str action "opened"
          then RespOk else RespBotIgnored)).
Proof.
  intros Hs Hl Hbot.
  assert (Hrun : forall action,
            getitem (VDict payload) "action" = inr action ->
            bot_event w payload =
            ([], inr (if negb (dict_mem "issue" payload) && eq_str action "opened"
                      then RespOk else RespBotIgnored))).
  { intros action Ha. pose proof (classify_run w payload _ _ _ Ha Hs Hl) as Hc.
    rewrite Hbot in Hc.
    destruct (negb (dict_mem "issue" payload) && eq_str action "opened");
      now apply bot_event_classify_return. }
  split.
  - destruct (getitem (VDict payload) "action") as [e|action] eqn:Ha.
    + assert (Hm : dict_mem "action" payload = false).
      { unfold getitem in Ha. unfold dict_mem.
        now destruct (dict_get "action" payload). }
      now rewrite (bot_event_classify_raise _ _ _ (classify_no_action w _ Hm)).
    + now rewrite (Hrun action eq_refl).
  - intros action Ha. now rewrite (Hrun action Ha).
Qed.

Lemma bot_sender_ignored_witness :
  let w := example_world (example_config []) [] in
  let payload :=
    [("action", VStr "created"); issue_field [];
     ("comment", VDict [("body", VStr "Synced")]);
     ("sender", VDict [("login", VStr "sync-bot")])] in
  bot_event w payload = ([], inr RespBotIgnored).
Proof.
  intros w payload.
  destruct (bot_sender_ignored w payload (VDict [("login", VStr "sync-bot")])
              (VStr "sync-bot") eq_refl eq_refl eq_refl) as [Ht Hr].
  specialize (Hr (VStr "created") eq_refl).
  destruct (bot_event w payload) as [t r]. cbn [fst snd] in Ht, Hr. now subst.
Defined.

(** X10. Deletions, unlabelings and edits of comments are not synced: for a
    sender other than the bot the handler answers "ok" without a call. *)
Theorem untracked_event_ignored (w : World) (payload : dict)
  (action sender login : value) :
  getitem (VDict payload) "action" = inr action ->
  getitem (VDict payload) "sender" = inr sender ->
  getitem sender "login" = inr login ->
  eq_getenv login (BOT_NAME w) = false ->
  eq_str action "deleted" = true \/ eq_str action "unlabeled" = true \/
  (eq_str action "edited" = true /\ dict_mem "comment" payload = true) ->
  bot_event w payload = ([], inr RespOk).
Proof.
  intros Ha Hs Hl Hbot Hkind. apply bot_event_classify_return.
  rewrite (classify_run w payload _ _ _ Ha Hs Hl), Hbot.
  destruct Hkind as [H|[H|[H Hc]]]; rewrite (eq_str_true _ _ H); cbn; try reflexivity.
  - now destruct (dict_mem "issue" payload).
  - now destruct (dict_mem "issue" payload).
  - rewrite Hc. now destruct (dict_mem "issue" payload).
Qed.

Lemma untracked_event_ignored_witness :
  bot_event (example_world (example_config []) [example_ticket []])
    (comment_event "edited" [] "typo fixed") =
  ([], inr RespOk).
Proof.
  apply (untracked_event_ignored _ _ (VStr "edited")
           (VDict [("login", VStr "alice")]) (VStr "alice")); try reflexivity.
  right. right. split; reflexivity.
Defined.

(** ** Payloads and config files the handler cannot read *)

(** X11. An event that passes the classification but holds no [issue], a
    pull request event for one, makes the handler connect to the repository
    and then raise [KeyError] at [payload["issue"]]. *)
Theorem event_without_issue_raises (w : World) (payload : dict)
  (repository repo_owner owner repo_name : value) :
  classify w payload = ([], Next tt) ->
  getitem (VDict payload) "repository" = inr repository ->
  getitem repository "owner" = inr repo_owner ->
  getitem repo_owner "login" = inr owner ->
  getitem repository "name" = inr repo_name ->
  dict_mem "issue" payload = false ->
  bot_event w payload =
  ([GhGetInstallationToken owner repo_name; GhGetRepo owner repo_name],
   inl (KeyError "issue")).
Proof.
  intros Hc Hr Ho Hl Hn Hi.
  apply bot_event_prepare_raise, prepare_resolve_raise, resolve_identify_raise.
  unfold identify. rewrite (bind_next _ _ _ _ Hc). cbn [app]. unfold connect.
  rewrite (bind_lift_inr _ _ _ Hr), (bind_lift_inr _ _ _ Ho), (bind_lift_inr _ _ _ Hl),
    (bind_lift_inr _ _ _ Hr), (bind_lift_inr _ _ _ Hn), !bind_call,
    (bind_lift_inl _ _ _ (dict_mem_false_getitem _ _ Hi)).
  reflexivity.
Qed.

Lemma event_without_issue_raises_witness :
  bot_event (example_world (example_config []) [])
    (example_payload [("action", VStr "reopened"); ("pull_request", VDict [])]) =
  ([GhGetInstallationToken (VStr "acme") (VStr "widgets");
    GhGetRepo (VStr "acme") (VStr "widgets")],
   inl (KeyError "issue")).
Proof.
  apply (event_without_issue_raises _ _
           (VDict [("owner", VDict [("login", VStr "acme")]); ("name", VStr "widgets")])
           (VDict [("login", VStr "acme")])); reflexivity.
Defined.

(** X12. A config file whose content is not a mapping (an empty file loads
    as [None]) is not answered with a comment: the handler raises
    [TypeError] right after reading the file. *)
Theorem config_not_mapping_raises (w : World) (payload : dict) (t0 : list call)
  (issue : Issue) (loaded : value) :
  identify w payload = (t0, Next issue) ->
  gh_config w = ConfigContent (inr loaded) ->
  (forall d, loaded <> VDict d) ->
  bot_event w payload = (t0 ++ [GhGetContents config_path], inl TypeError).
Proof.
  intros Hid Hc Hnd.
  apply bot_event_prepare_raise, prepare_resolve_raise. unfold resolve.
  rewrite (bind_next _ _ _ _ Hid). cbn [fst snd].
  unfold load_settings. rewrite Hc, bind_call.
  destruct loaded as [| | | | |d]; try (now destruct (DEFAULT_SETTINGS w)).
  now destruct (Hnd d).
Qed.

Lemma config_not_mapping_raises_witness :
  bot_event (example_world (ConfigContent (inr VNone)) []) (issue_event "opened" []) =
  ([GhGetInstallationToken (VStr "acme") (VStr "widgets");
    GhGetRepo (VStr "acme") (VStr "widgets"); GhGetIssue (VInt 7);
    GhGetContents config_path],
   inl TypeError).
Proof.
  apply (config_not_mapping_raises _ _
           [GhGetInstallationToken (VStr "acme") (VStr "widgets");
            GhGetRepo (VStr "acme") (VStr "widgets"); GhGetIssue (VInt 7)]
           example_issue VNone); try reflexivity.
  discriminate.
Defined.

(** X13. Of the errors of [yaml.safe_load] only [ScannerError] is caught:
    any other one leaves the handler as it is, after the file was read and
    without a comment on the issue. *)
Theorem load_error_propagates (w : World) (payload : dict) (t0 : list call)
  (issue : Issue) (e : exn) :
  identify w payload = (t0, Next issue) ->
  gh_config w = ConfigContent (inl e) ->
  e <> ScannerError ->
  bot_event w payload = (t0 ++ [GhGetContents config_path], inl e).
Proof.
  intros Hid Hc Hne.
  apply bot_event_prepare_raise, prepare_resolve_raise. unfold resolve.
  rewrite (bind_next _ _ _ _ Hid). cbn [fst snd].
  unfold load_settings. rewrite Hc, bind_call.
  destruct e; try reflexivity. now destruct Hne.
Qed.

Lemma load_error_propagates_witness :
  bot_event (example_world (ConfigContent (inl YAMLError)) []) (issue_event "opened" []) =
  ([GhGetInstallationToken (VStr "acme") (VStr "widgets");
    GhGetRepo (VStr "acme") (VStr "widgets"); GhGetIssue (VInt 7);
    GhGetContents config_path],
   inl YAMLError).
Proof.
  apply (load_error_propagates _ _
           [GhGetInstallationToken (VStr "acme") (VStr "widgets");
            GhGetRepo (VStr "acme") (VStr "widgets"); GhGetIssue (VInt 7)]
           example_issue YAMLError); try reflexivity.
  discriminate.
Defined.

(** X14. A payload without the [action] key raises [KeyError] at line 130,
    before any call. *)
Theorem event_without_action_raises (w : World) (payload : dict) :
  dict_mem "action" payload = false ->
  bot_event w payload = ([], inl (KeyError "action")).
Proof.
  intros H. now apply bot_event_classify_raise, classify_no_action.
Qed.

Lemma event_without_action_raises_witness :
  bot_event (example_world (example_config []) []) (example_payload [issue_field []]) =
  ([], inl (KeyError "action")).
Proof.
  apply event_without_action_raises. reflexivity.
Defined.

(** ** The label gate, when a label matches *)

Lemma label_blocked_match (w : World) (allowed names : list string)
  (name a : string) :
  In name names -> In a allowed -> eq_ci name a ->
  label_blocked (map (lower w) allowed) (map (lower w) names) = false.
Proof.
  intros Hname Ha Hci. unfold label_blocked.
  destruct (map (lower w) allowed) as [|a0 rest] eqn:E; [reflexivity|]. rewrite <- E.
  apply negb_false_iff. apply existsb_exists. exists (lower w name). split.
  - now apply in_map.
  - apply str_in_In. apply (eq_ci_lower w) in Hci. unfold ci_match in Hci.
    rewrite Hci. now apply in_map.
Qed.

(** X15. An issue that carries an allowed label, up to case, passes the
    label gate: the handler goes on to search Jira for its ticket. *)
Theorem label_match_passes_gate (w : World) (payload : dict) (t0 : list call)
  (issue : Issue) (settings : value) (allowed names : list string) (name a : string) :
  resolve w payload = (t0, Next (issue, settings)) ->
  getitem settings "labels" = inr (VList (map VStr allowed)) ->
  issue_label_names payload names ->
  In name names -> In a allowed -> eq_ci name a ->
  label_gate w settings payload = ([], Next (map (lower w) names)) /\
  exists key rest,
    fst (bot_event w payload) = t0 ++ JiraSearchIssues key (html_url issue) :: rest.
Proof.
  intros Hres Hallowed Hnames Hname Ha Hci.
  pose proof (label_gate_run _ _ _ _ _ (allowed_labels_of_names w _ _ Hallowed)
                (payload_labels_of_names w _ _ Hnames)) as Hgate.
  rewrite (label_blocked_match w _ _ _ _ Hname Ha Hci) in Hgate.
  split; [exact Hgate|].
  destruct (resolve_next _ _ _ _ _ Hres) as (t0' & _ & Hload & _).
  destruct (load_settings_next _ _ _ Hload) as (_ & _ & Hkey & _).
  apply has_nonempty_getitem in Hkey as (key & Hkey & _).
  exists key. unfold bot_event, finish. cbn [fst].
  destruct (bind_trace_prefix (prepare w payload)
              (fun ctx => reconcile w payload ctx)) as [r ->].
  unfold prepare. rewrite (bind_next _ _ _ _ Hres). cbn [fst snd].
  rewrite (bind_next _ _ _ _ Hgate). cbn [fst snd].
  rewrite (bind_next _ _ _ _ (locate_run w _ _ issue Hkey)). cbn [fst snd app].
  rewrite <- app_assoc. cbn [app]. eexists. reflexivity.
Qed.

(** ** What a handler run never does *)

Lemma bind_pure {A B : Type} (a : A) (f : A -> M B) : bind (lift (inr a)) f = f a.
Proof. now apply bind_lift_inr. Qed.

Lemma bind_fail {A B : Type} (e : exn) (f : A -> M B) :
  bind (lift (inl e)) f = ([], Raise e).
Proof. reflexivity. Qed.

Lemma fst_bind {A B : Type} (m : M A) (f : A -> M B) :
  fst (bind m f) =
  fst m ++ match snd m with Next a => fst (f a) | _ => [] end.
Proof.
  unfold bind. destruct m as [t [a|r|e]]; cbn; now rewrite ?app_nil_r.
Qed.

Lemma never_lift {A : Type} (P : call -> bool) (x : result A) : never P (lift x).
Proof. now destruct x. Qed.

Lemma never_bind {A B : Type} (P : call -> bool) (m : M A) (f : A -> M B) :
  never P m -> (forall a, never P (f a)) -> never P (bind m f).
Proof.
  unfold never. intros Hm Hf. rewrite fst_bind, filter_app, Hm.
  destruct (snd m); [apply Hf|reflexivity|reflexivity].
Qed.

Ltac never_tac :=
  repeat first
    [ reflexivity
    | apply never_lift
    | apply never_bind; [|intros ?]
    | match goal with
      | |- never _ (if ?c then _ else _) => destruct c
      | |- never _ (match ?x with _ => _ end) => destruct x
      end ].

(** Lines 130-240 make no call that creates or changes a ticket, however
    they end. *)
Lemma prepare_never_changes (w : World) (payload : dict) :
  never is_ticket_change (prepare w payload).
Proof.
  unfold prepare, resolve, identify, classify, connect, load_settings,
    label_gate, locate, map_fields.
  cbv zeta. never_tac.
Qed.

(** Running a block on every way its reads and tests can go. *)
Ltac crunch :=
  repeat first
    [ progress rewrite ?bind_pure, ?bind_fail, ?bind_call, ?bind_ret
    | progress cbn [fst snd app]
    | match goal with
      | |- context [lift ?x] =>
          lazymatch x with
          | inr _ => fail
          | inl _ => fail
          | _ => destruct x eqn:?
          end
      | |- context [if ?c then _ else _] => destruct c eqn:?
      end ].

Lemma create_or_update_fits (w : World) (payload : dict) (ctx : Context) (c : call) :
  In c (fst (create_or_update w payload ctx)) -> change_fits payload c.
Proof.
  unfold create_or_update.
  destruct (ctx_existing_issues ctx) as [|jira_issue rest]; crunch.
  all: unfold done, ret; cbn [fst In]; intros H;
    repeat (destruct H as [<-|H]); try contradiction; cbn [change_fits];
    repeat match goal with
           | E : eq_str _ _ = true |- _ => apply eq_str_true in E; subst
           end;
    eauto.
Qed.

Lemma is_comment_sync_true (payload : dict) (ctx : Context) :
  is_comment_sync payload ctx = inr true ->
  getitem (VDict payload) "action" = inr (VStr "created") /\
  dict_mem "comment" payload = true /\
  exists sync_comments,
    getitem (ctx_settings ctx) "sync_comments" = inr sync_comments /\
    truthy sync_comments = true.
Proof.
  unfold is_comment_sync.
  destruct (getitem (ctx_settings ctx) "sync_comments") as [e|sc]; [discriminate|].
  cbn [rbind]. destruct (truthy sc) eqn:Hsc; [|discriminate].
  destruct (getitem (VDict payload) "action") as [e|action]; [discriminate|].
  cbn [rbind]. intros H. injection H as H. apply andb_true_iff in H as [Ha Hc].
  apply eq_str_true in Ha. subst. eauto.
Qed.

Lemma sync_comment_fits (w : World) (payload : dict) (ctx : Context)
  (existing_issues : list Ticket) (c : call) :
  In c (fst (sync_comment w payload ctx existing_issues)) -> change_fits payload c.
Proof.
  unfold sync_comment.
  destruct (is_comment_sync payload ctx) as [e|[|]] eqn:Hsync;
    rewrite ?bind_pure, ?bind_fail; try (intros []).
  apply is_comment_sync_true in Hsync as (Ha & Hc & _).
  crunch.
  all: unfold done; cbn [fst In]; intros H;
    repeat (destruct H as [<-|H]); try contradiction; cbn [change_fits]; auto.
Qed.

Lemma bot_event_trace (w : World) (payload : dict) :
  fst (bot_event w payload) =
  fst (prepare w payload) ++
  match snd (prepare w payload) with
  | Next ctx =>
      fst (create_or_update w payload ctx) ++
      match snd (create_or_update w payload ctx) with
      | Next existing_issues => fst (sync_comment w payload ctx existing_issues)
      | _ => []
      end
  | _ => []
  end.
Proof.
  unfold bot_event, finish. cbn [fst]. rewrite fst_bind.
  destruct (snd (prepare w payload)); try reflexivity.
  unfold reconcile. now rewrite fst_bind.
Qed.

Lemma never_In {A : Type} (P : call -> bool) (m : M A) (c : call) :
  never P m -> In c (fst m) -> P c = false.
Proof.
  unfold never. intros Hn Hin. destruct (P c) eqn:E; [|reflexivity].
  assert (Hf : In c (filter P (fst m))) by (apply filter_In; auto).
  rewrite Hn in Hf. destruct Hf.
Qed.

(** X16. The action of the event bounds what is done to a ticket: a ticket
    is created only on an action other than "closed", it is transitioned
    only on "closed" and "reopened", updated only on "edited", and a comment
    is added to it only on "created" with a [comment] in the payload. *)
Theorem change_fits_action (w : World) (payload : dict) (c : call) :
  In c (fst (bot_event w payload)) -> change_fits payload c.
Proof.
  rewrite bot_event_trace. intros H. apply in_app_or in H as [H|H].
  - pose proof (never_In _ _ _ (prepare_never_changes w payload) H) as Hc.
    destruct c; try discriminate Hc; exact I.
  - destruct (snd (prepare w payload)) as [ctx|r|e]; try destruct H.
    apply in_app_or in H as [H|H]; [now apply create_or_update_fits in H|].
    destruct (snd (create_or_update w payload ctx)) as [existing_issues|r|e];
      try destruct H.
    now apply sync_comment_fits in H.
Qed.

Lemma change_fits_action_witness :
  change_fits (issue_event "closed" [])
    (JiraTransitionIssue (example_ticket []) (VStr "done")).
Proof.
  apply (change_fits_action (example_world (example_config []) [example_ticket []])).
  cbn. auto 10.
Defined.

Ltac name_action :=
  repeat match goal with
         | E : eq_str _ _ = true |- _ => apply eq_str_true in E; subst
         end.

(** Lines 242-265: the change they make, and the list they leave. *)
Lemma create_or_update_changes (w : World) (payload : dict) (ctx : Context) :
  let m := create_or_update w payload ctx in
  filter is_ticket_change (fst m) = [] \/
  (filter is_ticket_change (fst m) = [JiraCreateIssue (ctx_issue_dict ctx)] /\
   forall l, snd m = Next l -> l = [jira_create_issue w (ctx_issue_dict ctx)]) \/
  (getitem (VDict payload) "action" <> inr (VStr "created") /\
   ((exists ticket status,
       filter is_ticket_change (fst m) = [JiraTransitionIssue ticket status]) \/
    (exists ticket fields,
       filter is_ticket_change (fst m) = [JiraUpdate ticket fields]))).
Proof.
  cbv zeta. unfold create_or_update.
  destruct (ctx_existing_issues ctx) as [|jira_issue rest]; crunch.
  all: unfold done, ret; cbn [fst snd filter is_ticket_change]; name_action.
  all: try (left; reflexivity).
  all: try (right; left; split; [reflexivity|]; intros l H;
            first [discriminate H | now injection H as <-]).
  all: right; right; (split; [discriminate|]); eauto.
Qed.

(** Lines 267-279: the one change they can make. *)
Lemma sync_comment_changes (w : World) (payload : dict) (ctx : Context)
  (existing_issues : list Ticket) :
  let m := sync_comment w payload ctx existing_issues in
  filter is_ticket_change (fst m) = [] \/
  (getitem (VDict payload) "action" = inr (VStr "created") /\
   exists first rest login text,
     existing_issues = first :: rest /\
     filter is_ticket_change (fst m) = [JiraAddComment first login text]).
Proof.
  cbv zeta. unfold sync_comment.
  destruct (is_comment_sync payload ctx) as [e|[|]] eqn:Hsync;
    rewrite ?bind_pure, ?bind_fail; try (now left).
  apply is_comment_sync_true in Hsync as (Ha & Hc & _).
  destruct existing_issues as [|first rest]; crunch.
  all: unfold done; cbn [fst snd filter is_ticket_change]; try (now left).
  right. split; [exact Ha|]. eauto 10.
Qed.

(** X17. One event changes one ticket at most: the calls that create or
    change a ticket are none, one creation (followed, for a comment event,
    by the comment on the ticket just created), one transition, one update,
    or one comment. *)
Theorem one_change_per_event (w : World) (payload : dict) :
  let changes := filter is_ticket_change (fst (bot_event w payload)) in
  changes = [] \/
  (exists fields, changes = [JiraCreateIssue fields]) \/
  (exists fields login text,
     changes = [JiraCreateIssue fields;
                JiraAddComment (jira_create_issue w fields) login text]) \/
  (exists ticket status, changes = [JiraTransitionIssue ticket status]) \/
  (exists ticket fields, changes = [JiraUpdate ticket fields]) \/
  (exists ticket login text, changes = [JiraAddComment ticket login text]).
Proof.
  cbv zeta. rewrite bot_event_trace, filter_app.
  pose proof (prepare_never_changes w payload) as Hp. unfold never in Hp. rewrite Hp.
  cbn [app]. destruct (snd (prepare w payload)) as [ctx|r|e]; [|now left|now left].
  rewrite filter_app.
  pose proof (create_or_update_changes w payload ctx) as Hcu. cbv zeta in Hcu.
  destruct (snd (create_or_update w payload ctx)) as [existing_issues|r|e].
  - pose proof (sync_comment_changes w payload ctx existing_issues) as Hs.
    cbv zeta in Hs.
    destruct Hcu as [-> | [[-> Hl] | [Hne [(t & s & ->) | (t & f & ->)]]]];
      destruct Hs as [-> | (Ha & first & rest & login & text & -> & ->)];
      cbn [app]; try contradiction; eauto 10.
    specialize (Hl _ eq_refl). injection Hl as -> ->. eauto 10.
  - rewrite app_nil_r.
    destruct Hcu as [-> | [[-> _] | [_ [(t & s & ->) | (t & f & ->)]]]]; eauto 10.
  - rewrite app_nil_r.
    destruct Hcu as [-> | [[-> _] | [_ [(t & s & ->) | (t & f & ->)]]]]; eauto 10.
Qed.

(** X18. A ticket is created or changed only after Jira was searched for
    the ticket of the issue: every such call comes after the search, and no
    Jira call comes before it. *)
Theorem change_follows_search (w : World) (payload : dict) (c : call) :
  In c (fst (bot_event w payload)) ->
  is_ticket_change c = true ->
  exists t0 key url rest,
    fst (bot_event w payload) = t0 ++ JiraSearchIssues key url :: rest /\
    filter is_jira_call t0 = [] /\
    In c rest.
Proof.
  rewrite bot_event_trace. intros H Hc.
  destruct (prepare w payload) as [t o] eqn:Hp. cbn [fst snd] in *.
  assert (Hin : ~ In c t).
  { intros Hin. pose proof (never_In _ (prepare w payload) c
                              (prepare_never_changes w payload)) as Hn.
    rewrite Hp in Hn. specialize (Hn Hin). congruence. }
  apply in_app_or in H as [H|H]; [contradiction|].
  destruct o as [ctx|r|e]; try destruct H.
  destruct (prepare_trace _ _ _ _ Hp)
    as (owner & repo_name & number & issue & key & configured & _ & _ & -> & _).
  exists [GhGetInstallationToken owner repo_name; GhGetRepo owner repo_name;
          GhGetIssue number; GhGetContents config_path], key, (html_url issue).
  eexists. split; [|split; [reflexivity|]].
  - cbn [app]. reflexivity.
  - apply in_or_app. now right.
Qed.

Lemma change_follows_search_witness :
  exists t0 key url rest,
    fst (bot_event (example_world (example_config []) []) (issue_event "opened" [])) =
      t0 ++ JiraSearchIssues key url :: rest /\
    filter is_jira_call t0 = [] /\
    In (JiraCreateIssue
          [("project", VDict [("key", VStr "PRJ")]);
           ("summary", VStr "Crash on start");
           ("description",
            VStr (jira_issue_description_template
                    "https://github.com/acme/widgets/issues/7" "alice"
                    (Some "It crashes.")));
           ("issuetype", VDict [("name", VStr "Bug")])]) rest.
Proof.
  apply change_follows_search; [|reflexivity].
  cbn. auto 10.
Defined.

Lemma prepare_statuses (w : World) (payload : dict) (t : list call) (ctx : Context) :
  prepare w payload = (t, Next ctx) ->
  exists status_mapping,
    getitem (ctx_settings ctx) "status_mapping" = inr status_mapping /\
    getitem status_mapping "opened" = inr (ctx_opened_status ctx) /\
    getitem status_mapping "closed" = inr (ctx_closed_status ctx).
Proof.
  unfold prepare. intros H. do 4 step_next H.
  destruct v as [issue settings]; cbn [fst snd] in *.
  repeat step_next H. subst; cbn [ctx_settings ctx_opened_status ctx_closed_status].
  assert (v4 = v) by congruence. subst. eauto.
Qed.

(** *** The first ticket of line 274 *)

Lemma getitem_error (v : value) (key : string) (e : exn) :
  getitem v key = inl e -> e <> IndexError.
Proof.
  unfold getitem. destruct v; try (intros H; injection H as <-; discriminate).
  destruct (dict_get key d); [discriminate|]. intros H; injection H as <-; discriminate.
Qed.

Lemma append_components_error (names : list string) (issue_dict : dict) (e : exn) :
  append_components issue_dict names = inl e -> e <> IndexError.
Proof.
  revert issue_dict. induction names as [|name rest IH]; intros issue_dict; cbn.
  - discriminate.
  - unfold append_component.
    destruct (getitem (VDict issue_dict) "components") as [e0|current] eqn:E; cbn [rbind].
    + intros H; injection H as <-. now apply getitem_error in E.
    + destruct current; cbn [rbind];
        try (intros H; injection H as <-; discriminate).
      apply IH.
Qed.

Lemma is_comment_sync_error (payload : dict) (ctx : Context) (e : exn) :
  is_comment_sync payload ctx = inl e -> e <> IndexError.
Proof.
  unfold is_comment_sync.
  destruct (getitem (ctx_settings ctx) "sync_comments") as [e0|sc] eqn:E; cbn [rbind].
  - intros H; injection H as <-. now apply getitem_error in E.
  - destruct (truthy sc); [|discriminate].
    destruct (getitem (VDict payload) "action") as [e0|a] eqn:E'; cbn [rbind];
      [|discriminate].
    intros H; injection H as <-. now apply getitem_error in E'.
Qed.

Ltac not_index :=
  let H := fresh in
  intros H; injection H as H; subst;
  repeat match goal with
         | E : getitem _ _ = inl IndexError |- _ => now apply getitem_error in E
         | E : is_comment_sync _ _ = inl IndexError |- _ =>
             now apply is_comment_sync_error in E
         | E : render_document _ ?v = inl IndexError |- _ => now destruct v
         | E : (if ?c then _ else _) = inl IndexError |- _ => destruct c
         | E : append_components _ _ = inl IndexError |- _ =>
             now apply append_components_error in E
         | E : inr _ = inl _ |- _ => discriminate E
         end.

Lemma create_or_update_leaves_ticket (w : World) (payload : dict) (ctx : Context) :
  snd (create_or_update w payload ctx) <> Raise IndexError /\
  (forall l, snd (create_or_update w payload ctx) = Next l -> l <> []).
Proof.
  unfold create_or_update.
  destruct (ctx_existing_issues ctx) as [|jira_issue rest]; crunch.
  all: unfold done, ret; cbn [snd]; split;
    [first [discriminate | not_index]
    |intros l H; first [discriminate H | injection H as <-; discriminate]].
Qed.

(** X19. [existing_issues[0]] at line 274 is always defined: when the
    comment is synced the list holds the ticket found or the one just
    created, so the reconciliation never raises [IndexError]. *)
Theorem first_ticket_defined (w : World) (payload : dict) (ctx : Context) :
  snd (reconcile w payload ctx) <> Raise IndexError.
Proof.
  unfold reconcile.
  destruct (create_or_update_leaves_ticket w payload ctx) as [Hr Hl].
  destruct (create_or_update w payload ctx) as [t [l|r|e]]; cbn [snd] in *;
    unfold bind; cbn [fst snd]; try discriminate; [|congruence].
  specialize (Hl l eq_refl). destruct l as [|first rest]; [congruence|].
  clear. unfold sync_comment.
  destruct (is_comment_sync payload ctx) as [e|[|]] eqn:Hsync;
    rewrite ?bind_pure, ?bind_fail; try discriminate.
  - not_index.
  - crunch. all: unfold done; cbn [snd]; first [discriminate | not_index].
Qed.

(** ** The reconciliation with a ticket at hand *)

(** Lines 255-258 *)
Lemma create_or_update_transition (w : World) (payload : dict) (ctx : Context)
  (jira_issue : Ticket) (rest : list Ticket) (event : string) :
  ctx_existing_issues ctx = jira_issue :: rest ->
  getitem (VDict payload) "action" = inr (VStr event) ->
  event = "closed" \/ event = "reopened" ->
  create_or_update w payload ctx =
  ([JiraTransitionIssue jira_issue
      (if String.eqb event "closed" then ctx_closed_status ctx
       else ctx_opened_status ctx)],
   Next (jira_issue :: rest)).
Proof.
  intros Hex Ha [-> | ->]; unfold create_or_update; rewrite Hex.
  - rewrite (bind_lift_inr _ _ _ Ha). reflexivity.
  - rewrite (bind_lift_inr _ _ _ Ha). cbn [eq_str String.eqb Ascii.eqb Bool.eqb].
    rewrite (bind_lift_inr _ _ _ Ha). reflexivity.
Qed.

(** X20. The ticket follows the state of the issue: when the issue is
    closed or reopened and a ticket exists, the first ticket found is
    transitioned to the status [status_mapping] gives for "closed" or
    "opened"; nothing else is done to it. *)
Theorem ticket_follows_issue_state (w : World) (payload : dict) (t0 : list call)
  (ctx : Context) (jira_issue : Ticket) (rest : list Ticket)
  (event state : string) (sync_comments : value) :
  prepare w payload = (t0, Next ctx) ->
  (event = "closed" /\ state = "closed") \/
  (event = "reopened" /\ state = "opened") ->
  getitem (VDict payload) "action" = inr (VStr event) ->
  ctx_existing_issues ctx = jira_issue :: rest ->
  getitem (ctx_settings ctx) "sync_comments" = inr sync_comments ->
  exists status_mapping status,
    getitem (ctx_settings ctx) "status_mapping" = inr status_mapping /\
    getitem status_mapping state = inr status /\
    bot_event w payload =
    (t0 ++ [JiraTransitionIssue jira_issue status], inr RespOk).
Proof.
  intros Hp Hev Ha Hex Hsc.
  destruct (prepare_statuses _ _ _ _ Hp) as (sm & Hsm & Hopen & Hclosed).
  assert (Hcu := create_or_update_transition w payload ctx jira_issue rest event Hex Ha).
  assert (Hsync : sync_comment w payload ctx (jira_issue :: rest) = ([], Return RespOk)).
  { destruct Hev as [[-> _] | [-> _]];
      now apply (proj2 (sync_comment_other_action w payload ctx _ _ Ha eq_refl)
                   _ Hsc). }
  exists sm.
  destruct Hev as [[-> ->] | [-> ->]].
  - exists (ctx_closed_status ctx). split; [assumption|]. split; [assumption|].
    rewrite (bot_event_reconcile w payload t0
               [JiraTransitionIssue jira_issue (ctx_closed_status ctx)] ctx
               (Return RespOk) Hp); [reflexivity|].
    unfold reconcile. rewrite (bind_next _ _ _ _ (Hcu (or_introl eq_refl))).
    now rewrite Hsync.
  - exists (ctx_opened_status ctx). split; [assumption|]. split; [assumption|].
    rewrite (bot_event_reconcile w payload t0
               [JiraTransitionIssue jira_issue (ctx_opened_status ctx)] ctx
               (Return RespOk) Hp); [reflexivity|].
    unfold reconcile. rewrite (bind_next _ _ _ _ (Hcu (or_intror eq_refl))).
    now rewrite Hsync.
Qed.

Lemma ticket_follows_issue_state_witness :
  bot_event (example_world (example_config []) [example_ticket []])
    (issue_event "reopened" []) =
  (example_trace ++ [JiraTransitionIssue (example_ticket []) (VStr "Untriaged")],
   inr RespOk).
Proof.
  set (w := example_world (example_config []) [example_ticket []]).
  set (payload := issue_event "reopened" []).
  assert (H : exists ctx,
             prepare w payload = (example_trace, Next ctx) /\
             ctx_existing_issues ctx = [example_ticket []] /\
             getitem (ctx_settings ctx) "sync_comments" = inr (VBool true) /\
             ctx_opened_status ctx = VStr "Untriaged").
  { vm_compute. eexists. repeat split; reflexivity. }
  destruct H as (ctx & Hp & Hex & Hsc & Hst).
  destruct (ticket_follows_issue_state w payload example_trace ctx _ _
              "reopened" "opened" _ Hp (or_intror (conj eq_refl eq_refl))
              eq_refl Hex Hsc) as (sm & status & Hsm & Hstatus & Hrun).
  destruct (prepare_statuses _ _ _ _ Hp) as (sm' & Hsm' & Hopen & _).
  assert (sm' = sm) by congruence. subst sm'.
  assert (status = VStr "Untriaged") by congruence. subst status.
  exact Hrun.
Defined.

(** X21. A comment on an issue that has a ticket is added to the first
    ticket found, under the login of its author and rendered for Jira, when
    [sync_comments] is set; nothing else is done, and nothing at all when
    [sync_comments] is off. *)
Theorem comment_synced_to_ticket (w : World) (payload : dict) (t0 : list call)
  (ctx : Context) (jira_issue : Ticket) (rest : list Ticket)
  (sync_comments comment sender login : value) (text : string) :
  prepare w payload = (t0, Next ctx) ->
  getitem (VDict payload) "action" = inr (VStr "created") ->
  ctx_existing_issues ctx = jira_issue :: rest ->
  getitem (ctx_settings ctx) "sync_comments" = inr sync_comments ->
  getitem (VDict payload) "comment" = inr comment ->
  getitem comment "body" = inr (VStr text) ->
  getitem (VDict payload) "sender" = inr sender ->
  getitem sender "login" = inr login ->
  bot_event w payload =
  (t0 ++ (if truthy sync_comments
          then [JiraAddComment jira_issue login (render w text)] else []),
   inr RespOk).
Proof.
  intros Hp Ha Hex Hsc Hc Hb Hs Hl.
  pose proof (create_or_update_existing_other w payload ctx _ _ _ Hex Ha
                eq_refl eq_refl eq_refl) as Hcu.
  rewrite (bot_event_reconcile w payload t0
             (if truthy sync_comments
              then [JiraAddComment jira_issue login (render w text)] else [])
             ctx (Return RespOk) Hp); [reflexivity|].
  unfold reconcile. rewrite (bind_next _ _ _ _ Hcu). cbn [fst snd app].
  now rewrite (sync_comment_created w payload ctx _ _ _ _ _ _ _ Ha Hsc Hc Hb Hs Hl).
Qed.

Lemma comment_synced_to_ticket_witness :
  bot_event (example_world (example_config []) [example_ticket []])
    (comment_event "created" [] "Same here") =
  (example_trace ++ [JiraAddComment (example_ticket []) (VStr "alice") "Same here"],
   inr RespOk).
Proof.
  set (w := example_world (example_config []) [example_ticket []]).
  set (payload := comment_event "created" [] "Same here").
  assert (H : exists ctx,
             prepare w payload = (example_trace, Next ctx) /\
             ctx_existing_issues ctx = [example_ticket []] /\
             getitem (ctx_settings ctx) "sync_comments" = inr (VBool true)).
  { vm_compute. eexists. repeat split; reflexivity. }
  destruct H as (ctx & Hp & Hex & Hsc).
  exact (comment_synced_to_ticket w payload example_trace ctx _ _ _
           (VDict [("body", VStr "Same here")]) (VDict [("login", VStr "alice")])
           (VStr "alice") "Same here" Hp eq_refl Hex Hsc eq_refl eq_refl eq_refl eq_refl).
Defined.

(** X22. An event with an action the handler has no branch for ("opened",
    "labeled", "assigned", ...) leaves an existing ticket alone: after the
    search no call is made. *)
Theorem other_action_leaves_ticket (w : World) (payload : dict) (t0 : list call)
  (ctx : Context) (jira_issue : Ticket) (rest : list Ticket)
  (action sync_comments : value) :
  prepare w payload = (t0, Next ctx) ->
  getitem (VDict payload) "action" = inr action ->
  ctx_existing_issues ctx = jira_issue :: rest ->
  eq_str action "closed" = false ->
  eq_str action "reopened" = false ->
  eq_str action "edited" = false ->
  eq_str action "created" = false ->
  getitem (ctx_settings ctx) "sync_comments" = inr sync_comments ->
  bot_event w payload = (t0, inr RespOk).
Proof.
  intros Hp Ha Hex H1 H2 H3 H4 Hsc.
  pose proof (create_or_update_existing_other w payload ctx _ _ _ Hex Ha H1 H2 H3)
    as Hcu.
  destruct (sync_comment_other_action w payload ctx (jira_issue :: rest) _ Ha H4)
    as (_ & Hok).
  rewrite (bot_event_reconcile w payload t0 [] ctx (Return RespOk) Hp).
  - now rewrite app_nil_r.
  - unfold reconcile. rewrite (bind_next _ _ _ _ Hcu). cbn [fst snd app].
    now rewrite (Hok _ Hsc).
Qed.

Lemma other_action_leaves_ticket_witness :
  bot_event (example_world (example_config []) [example_ticket []])
    (issue_event "labeled" ["ui"]) =
  (example_trace, inr RespOk).
Proof.
  set (w := example_world (example_config []) [example_ticket []]).
  set (payload := issue_event "labeled" ["ui"]).
  assert (H : exists ctx,
             prepare w payload = (example_trace, Next ctx) /\
             ctx_existing_issues ctx = [example_ticket []] /\
             getitem (ctx_settings ctx) "sync_comments" = inr (VBool true)).
  { vm_compute. eexists. repeat split; reflexivity. }
  destruct H as (ctx & Hp & Hex & Hsc).
  exact (other_action_leaves_ticket w payload example_trace ctx _ _ (VStr "labeled") _
           Hp eq_refl Hex eq_refl eq_refl eq_refl eq_refl Hsc).
Defined.

(** X23. A missing ticket is created on any action but "closed": whatever
    the event is ("opened", "reopened", "edited", "labeled", ...), when the
    search finds no ticket one is created from the mapped fields, and its
    link is posted on the issue when [add_gh_comment] is set. *)
Theorem missing_ticket_created (w : World) (payload : dict) (t0 : list call)
  (ctx : Context) (action add_gh_comment sync_comments : value) :
  prepare w payload = (t0, Next ctx) ->
  getitem (VDict payload) "action" = inr action ->
  ctx_existing_issues ctx = [] ->
  eq_str action "closed" = false ->
  eq_str action "created" = false ->
  getitem (ctx_settings ctx) "add_gh_comment" = inr add_gh_comment ->
  getitem (ctx_settings ctx) "sync_comments" = inr sync_comments ->
  bot_event w payload =
  (t0 ++
   JiraCreateIssue (ctx_issue_dict ctx) ::
   (if truthy add_gh_comment
    then [GhCreateComment
            (gh_comment_body_template
               (permalink (jira_create_issue w (ctx_issue_dict ctx))))]
    else []),
   inr RespOk).
Proof.
  intros Hp Ha Hex H1 H2 Hadd Hsc.
  pose proof (create_or_update_creates w payload ctx _ Hex Ha H1) as Hcu.
  cbv zeta in Hcu. rewrite Hadd in Hcu.
  destruct (sync_comment_other_action w payload ctx
              [jira_create_issue w (ctx_issue_dict ctx)] _ Ha H2) as (_ & Hok).
  assert (Hr : reconcile w payload ctx =
               (JiraCreateIssue (ctx_issue_dict ctx) ::
                (if truthy add_gh_comment
                 then [GhCreateComment
                         (gh_comment_body_template
                            (permalink (jira_create_issue w (ctx_issue_dict ctx))))]
                 else []),
                Return RespOk)).
  { unfold reconcile. rewrite (bind_next _ _ _ _ Hcu). cbn [fst snd].
    rewrite (Hok _ Hsc). cbn [fst snd]. now rewrite app_nil_r. }
  now rewrite (bot_event_reconcile _ _ _ _ _ _ Hp Hr).
Qed.

Lemma missing_ticket_created_witness :
  filter is_create
    (fst (bot_event (example_world (example_config []) []) (issue_event "labeled" ["ui"])))
  <> [].
Proof.
  set (w := example_world (example_config []) []).
  set (payload := issue_event "labeled" ["ui"]).
  assert (H : exists ctx,
             prepare w payload = (example_trace, Next ctx) /\
             ctx_existing_issues ctx = [] /\
             getitem (ctx_settings ctx) "add_gh_comment" = inr (VBool false) /\
             getitem (ctx_settings ctx) "sync_comments" = inr (VBool true)).
  { vm_compute. eexists. repeat split; reflexivity. }
  destruct H as (ctx & Hp & Hex & Hadd & Hsc).
  rewrite (missing_ticket_created w payload example_trace ctx (VStr "labeled") _ _
             Hp eq_refl Hex eq_refl eq_refl Hadd Hsc).
  discriminate.
Defined.

(** ** The fields of the ticket *)

Lemma map_fields_fields (w : World) (settings : value) (labels : list string)
  (issue : Issue) (t : list call) (issue_dict : dict) :
  map_fields w settings labels issue = (t, Next issue_dict) ->
  exists description issue_type key epic_key configured,
    issue_description w settings issue = inr description /\
    resolve_issue_type settings labels = inr issue_type /\
    getitem settings "jira_project_key" = inr key /\
    getitem settings "epic_key" = inr epic_key /\
    getitem settings "components" = inr configured /\
    issue_dict =
      [("project", VDict [("key", key)]);
       ("summary", VStr (title issue));
       ("description", VStr description);
       ("issuetype", VDict [("name", issue_type)])] ++
      (if truthy epic_key then [("parent", VDict [("key", epic_key)])] else []) ++
      (if truthy configured
       then match iterate configured with
            | inr items =>
                [("components",
                  VList (map_components items (jira_project_components w key)))]
            | inl _ => []
            end
       else []).
Proof.
  unfold map_fields. intros H. do 6 step_next H.
  exists v, v0, v1, v2, v4. repeat (split; [assumption|]).
  destruct (truthy v2); repeat step_next Hb; subst v3;
    destruct (truthy v4); repeat step_next H; subst issue_dict;
    repeat match goal with
           | A : getitem ?s ?k = inr ?x, B : getitem ?s ?k = inr ?y |- _ =>
               assert (x = y) by congruence; subst x; clear A
           end;
    try match goal with E : iterate _ = inr _ |- _ => rewrite E end;
    reflexivity.
Qed.

Lemma connect_issue (w : World) (payload : dict) (t : list call) (issue : Issue) :
  connect w payload = (t, Next issue) ->
  exists payload_issue number,
    getitem (VDict payload) "issue" = inr payload_issue /\
    getitem payload_issue "number" = inr number /\
    issue = gh_issue w number.
Proof.
  unfold connect. intros H. repeat step_next H. subst. eauto.
Qed.

Lemma identify_issue (w : World) (payload : dict) (t : list call) (issue : Issue) :
  identify w payload = (t, Next issue) ->
  exists payload_issue number,
    getitem (VDict payload) "issue" = inr payload_issue /\
    getitem payload_issue "number" = inr number /\
    issue = gh_issue w number.
Proof.
  unfold identify. intros H. step_next H. now apply connect_issue in H.
Qed.

Lemma prepare_fields (w : World) (payload : dict) (t0 : list call) (ctx : Context) :
  prepare w payload = (t0, Next ctx) ->
  exists payload_issue number labels description issue_type key epic_key configured,
    getitem (VDict payload) "issue" = inr payload_issue /\
    getitem payload_issue "number" = inr number /\
    payload_labels_of w payload = inr labels /\
    issue_description w (ctx_settings ctx) (gh_issue w number) = inr description /\
    resolve_issue_type (ctx_settings ctx) labels = inr issue_type /\
    getitem (ctx_settings ctx) "jira_project_key" = inr key /\
    getitem (ctx_settings ctx) "epic_key" = inr epic_key /\
    getitem (ctx_settings ctx) "components" = inr configured /\
    ctx_existing_issues ctx =
      jira_search_issues w key (html_url (gh_issue w number)) /\
    ctx_issue_dict ctx =
      [("project", VDict [("key", key)]);
       ("summary", VStr (title (gh_issue w number)));
       ("description", VStr description);
       ("issuetype", VDict [("name", issue_type)])] ++
      (if truthy epic_key then [("parent", VDict [("key", epic_key)])] else []) ++
      (if truthy configured
       then match iterate configured with
            | inr items =>
                [("components",
                  VList (map_components items (jira_project_components w key)))]
            | inl _ => []
            end
       else []).
Proof.
  intros H.
  destruct (prepare_next _ _ _ _ H)
    as (issue & labels & t1 & t2 & t3 & Hres & Hgate & Hloc & Hmap & _).
  destruct (resolve_next _ _ _ _ _ Hres) as (t1' & Hid & _).
  destruct (identify_issue _ _ _ _ Hid) as (payload_issue & number & Hpi & Hn & ->).
  destruct (label_gate_next _ _ _ _ _ Hgate) as (_ & Hlabels & _).
  destruct (locate_next _ _ _ _ _ Hloc) as (key & Hkey & _ & Hfound).
  destruct (map_fields_fields _ _ _ _ _ _ Hmap)
    as (description & issue_type & key' & epic_key & configured &
        Hd & Hty & Hkey' & Hepic & Hconf & Hdict).
  assert (key' = key) by congruence. subst key'.
  exists payload_issue, number, labels, description, issue_type, key, epic_key,
    configured.
  repeat (split; [assumption|]). exact Hdict.
Qed.

(** X24. The fields a ticket is created or updated with: the project is
    [jira_project_key], the summary is the title of the issue whose number
    the payload gives, the description and the issue type are the mapped
    ones; a [parent] is sent exactly when [epic_key] is set and [components]
    exactly when [settings.components] is non-empty, in this order.  The
    tickets at hand are those the search finds for the URL of that issue. *)
Theorem ticket_fields (w : World) (payload : dict) (t0 : list call) (ctx : Context) :
  prepare w payload = (t0, Next ctx) ->
  exists payload_issue number labels description issue_type key epic_key configured,
    getitem (VDict payload) "issue" = inr payload_issue /\
    getitem payload_issue "number" = inr number /\
    payload_labels_of w payload = inr labels /\
    issue_description w (ctx_settings ctx) (gh_issue w number) = inr description /\
    resolve_issue_type (ctx_settings ctx) labels = inr issue_type /\
    getitem (ctx_settings ctx) "jira_project_key" = inr key /\
    getitem (ctx_settings ctx) "epic_key" = inr epic_key /\
    getitem (ctx_settings ctx) "components" = inr configured /\
    ctx_existing_issues ctx =
      jira_search_issues w key (html_url (gh_issue w number)) /\
    ctx_issue_dict ctx =
      [("project", VDict [("key", key)]);
       ("summary", VStr (title (gh_issue w number)));
       ("description", VStr description);
       ("issuetype", VDict [("name", issue_type)])] ++
      (if truthy epic_key then [("parent", VDict [("key", epic_key)])] else []) ++
      (if truthy configured
       then match iterate configured with
            | inr items =>
                [("components",
                  VList (map_components items (jira_project_components w key)))]
            | inl _ => []
            end
       else []).
Proof. apply prepare_fields. Qed.

Lemma ticket_fields_witness :
  let w := example_world (example_config [("epic_key", VStr "PRJ-9")]) [] in
  let payload := issue_event "opened" [] in
  exists ctx,
    prepare w payload = (example_trace, Next ctx) /\
    dict_keys (ctx_issue_dict ctx) =
      ["project"; "summary"; "description"; "issuetype"; "parent"] /\
    dict_get "parent" (ctx_issue_dict ctx) = Some (VDict [("key", VStr "PRJ-9")]).
Proof.
  intros w payload.
  assert (H : exists ctx,
             prepare w payload = (example_trace, Next ctx) /\
             getitem (ctx_settings ctx) "epic_key" = inr (VStr "PRJ-9") /\
             getitem (ctx_settings ctx) "components" = inr (VList [])).
  { vm_compute. eexists. repeat split; reflexivity. }
  destruct H as (ctx & Hp & He & Hc).
  exists ctx. split; [exact Hp|].
  destruct (ticket_fields w payload example_trace ctx Hp)
    as (payload_issue & number & labels & description & issue_type & key &
        epic_key & configured & _ & _ & _ & _ & _ & _ & He' & Hc' & _ & ->).
  assert (epic_key = VStr "PRJ-9") by congruence.
  assert (configured = VList []) by congruence. subst.
  split; reflexivity.
Defined.

Lemma map_components_In (items : list value) (allowed : list string) (name : value) :
  In name (map name_of (map_components items allowed)) ->
  exists s, name = VStr s /\ In s allowed /\ In name items.
Proof.
  unfold map_components. rewrite map_map. intros H.
  apply in_map_iff in H as (component & Hname & Hin).
  cbn in Hname. subst component.
  apply filter_In in Hin as [Hin Hex].
  apply existsb_exists in Hex as (s & Hs & Heq).
  apply eq_str_true in Heq. eauto.
Qed.

(** X25. Only components the Jira project knows are sent: every component
    of the mapped fields is a string that is both listed in
    [settings.components] and among the components of the project. *)
Theorem sent_components_known (w : World) (payload : dict) (t0 : list call)
  (ctx : Context) (key name : value) :
  prepare w payload = (t0, Next ctx) ->
  getitem (ctx_settings ctx) "jira_project_key" = inr key ->
  In name (component_names (ctx_issue_dict ctx)) ->
  exists s configured items,
    name = VStr s /\
    In s (jira_project_components w key) /\
    getitem (ctx_settings ctx) "components" = inr configured /\
    iterate configured = inr items /\
    In name items.
Proof.
  intros Hp Hkey Hin.
  destruct (prepare_fields w payload t0 ctx Hp)
    as (payload_issue & number & labels & description & issue_type & key' &
        epic_key & configured & _ & _ & _ & _ & _ & Hkey' & _ & Hconf & _ & Hdict).
  assert (key' = key) by congruence. subst key'.
  unfold component_names in Hin. rewrite Hdict in Hin.
  destruct (truthy epic_key); destruct (truthy configured);
    try (cbn in Hin; contradiction).
  all: destruct (iterate configured) as [e|items] eqn:Hit;
    try (cbn in Hin; contradiction).
  all: cbn [app dict_get String.eqb Ascii.eqb Bool.eqb] in Hin;
    apply map_components_In in Hin as (s & -> & Hs & Hitem);
    exists s, configured, items; auto.
Qed.

Lemma sent_components_known_witness :
  let w := example_world
             (example_config [("components", VList [VStr "ui"; VStr "docs"])]) [] in
  let payload := issue_event "opened" [] in
  exists ctx t0,
    prepare w payload = (t0, Next ctx) /\
    component_names (ctx_issue_dict ctx) = [VStr "ui"] /\
    In "ui" (jira_project_components w (VStr "PRJ")).
Proof.
  intros w payload.
  assert (H : exists ctx t0,
             prepare w payload = (t0, Next ctx) /\
             getitem (ctx_settings ctx) "jira_project_key" = inr (VStr "PRJ") /\
             component_names (ctx_issue_dict ctx) = [VStr "ui"]).
  { vm_compute. do 2 eexists. repeat split; reflexivity. }
  destruct H as (ctx & t0 & Hp & Hkey & Hnames).
  exists ctx, t0. split; [exact Hp|]. split; [exact Hnames|].
  destruct (sent_components_known w payload t0 ctx (VStr "PRJ") (VStr "ui") Hp Hkey)
    as (s & configured & items & Hs & Hin & _).
  - rewrite Hnames. now left.
  - injection Hs as <-. exact Hin.
Defined.

(** Lines 259-265 when [settings.components] is empty. *)
Lemma create_or_update_plain_edit (w : World) (payload : dict) (ctx : Context)
  (jira_issue : Ticket) (rest : list Ticket) (configured : value) :
  ctx_existing_issues ctx = jira_issue :: rest ->
  getitem (VDict payload) "action" = inr (VStr "edited") ->
  getitem (ctx_settings ctx) "components" = inr configured ->
  truthy configured = false ->
  create_or_update w payload ctx =
  ([JiraUpdate jira_issue (ctx_issue_dict ctx)], Next (jira_issue :: rest)).
Proof.
  intros Hex Ha Hconf Hfalse. unfold create_or_update. rewrite Hex.
  rewrite (bind_lift_inr _ _ _ Ha). cbn [eq_str String.eqb Ascii.eqb Bool.eqb].
  rewrite (bind_lift_inr _ _ _ Ha). cbn [eq_str String.eqb Ascii.eqb Bool.eqb].
  rewrite (bind_lift_inr _ _ _ Ha). cbn [eq_str String.eqb Ascii.eqb Bool.eqb].
  rewrite (bind_lift_inr _ _ _ Hconf), Hfalse.
  now rewrite (bind_lift_inr _ _ _ eq_refl).
Qed.

(** X26. An edit of an issue that has a ticket, in a repository without
    configured components, updates the first ticket found with the mapped
    fields as they are; these hold no [components], so the components of
    the ticket are not touched. *)
Theorem plain_edit_updates_ticket (w : World) (payload : dict) (t0 : list call)
  (ctx : Context) (jira_issue : Ticket) (rest : list Ticket)
  (configured sync_comments : value) :
  prepare w payload = (t0, Next ctx) ->
  getitem (VDict payload) "action" = inr (VStr "edited") ->
  ctx_existing_issues ctx = jira_issue :: rest ->
  getitem (ctx_settings ctx) "components" = inr configured ->
  truthy configured = false ->
  getitem (ctx_settings ctx) "sync_comments" = inr sync_comments ->
  bot_event w payload =
    (t0 ++ [JiraUpdate jira_issue (ctx_issue_dict ctx)], inr RespOk) /\
  dict_get "components" (ctx_issue_dict ctx) = None.
Proof.
  intros Hp Ha Hex Hconf Hfalse Hsc. split.
  - pose proof (create_or_update_plain_edit w payload ctx _ _ _ Hex Ha Hconf Hfalse)
      as Hcu.
    destruct (sync_comment_other_action w payload ctx (jira_issue :: rest) _ Ha eq_refl)
      as (_ & Hok).
    assert (Hr : reconcile w payload ctx =
                 ([JiraUpdate jira_issue (ctx_issue_dict ctx)], Return RespOk)).
    { unfold reconcile. rewrite (bind_next _ _ _ _ Hcu). cbn [fst snd].
      now rewrite (Hok _ Hsc). }
    now rewrite (bot_event_reconcile _ _ _ _ _ _ Hp Hr).
  - destruct (prepare_fields w payload t0 ctx Hp)
      as (payload_issue & number & labels & description & issue_type & key &
          epic_key & configured' & _ & _ & _ & _ & _ & _ & _ & Hconf' & _ & ->).
    assert (configured' = configured) by congruence. subst configured'.
    rewrite Hfalse. now destruct (truthy epic_key).
Qed.

Lemma plain_edit_updates_ticket_witness :
  let w := example_world (example_config []) [example_ticket ["ui"]] in
  update_fields (fst (bot_event w (issue_event "edited" []))) <> [] /\
  map component_names (update_fields (fst (bot_event w (issue_event "edited" [])))) =
  [[]].
Proof.
  intros w. set (payload := issue_event "edited" []).
  assert (H : exists ctx,
             prepare w payload = (example_trace, Next ctx) /\
             ctx_existing_issues ctx = [example_ticket ["ui"]] /\
             getitem (ctx_settings ctx) "components" = inr (VList []) /\
             getitem (ctx_settings ctx) "sync_comments" = inr (VBool true)).
  { vm_compute. eexists. repeat split; reflexivity. }
  destruct H as (ctx & Hp & Hex & Hconf & Hsc).
  destruct (plain_edit_updates_ticket w payload example_trace ctx _ _ _ _
              Hp eq_refl Hex Hconf eq_refl Hsc) as [Hrun Hnone].
  rewrite Hrun. cbn [fst example_trace app update_fields map].
  unfold component_names. rewrite Hnone. split; [discriminate|reflexivity].
Defined.

Lemma label_match_passes_gate_witness :
  let w := example_world (example_config [("labels", VList [VStr "bug"])]) [] in
  exists key rest,
    fst (bot_event w (issue_event "opened" ["Bug"; "ui"])) =
    [GhGetInstallationToken (VStr "acme") (VStr "widgets");
     GhGetRepo (VStr "acme") (VStr "widgets");
     GhGetIssue (VInt 7); GhGetContents config_path] ++
    JiraSearchIssues key (html_url example_issue) :: rest.
Proof.
  intros w.
  refine (proj2 (label_match_passes_gate w (issue_event "opened" ["Bug"; "ui"])
                   [GhGetInstallationToken (VStr "acme") (VStr "widgets");
                    GhGetRepo (VStr "acme") (VStr "widgets");
                    GhGetIssue (VInt 7); GhGetContents config_path]
                   example_issue
                   (VDict [("jira_project_key", VStr "PRJ");
                           ("labels", VList [VStr "bug"]);
                           ("status_mapping",
                            VDict [("opened", VStr "Untriaged");
                                   ("closed", VStr "done")]);
                           ("components", VList []);
                           ("add_gh_comment", VBool false);
                           ("sync_description", VBool true);
                           ("sync_comments", VBool true);
                           ("epic_key", VStr "");
                           ("label_mapping", VDict [])])
                   ["bug"] ["Bug"; "ui"] "Bug" "bug" _ _ _ _ _ _)).
  - reflexivity.
  - reflexivity.
  - exists (snd (issue_field ["Bug"; "ui"])), (map label_object ["Bug"; "ui"]).
    repeat split; repeat constructor.
  - now left.
  - now left.
  - apply eq_ci_ascii_lower. reflexivity.
Defined.

(** ** Comments on the issue, and the configuration behind a Jira call *)

Lemma identify_never_comment (w : World) (payload : dict) :
  never is_issue_comment (identify w payload).
Proof. unfold identify, classify, connect. never_tac. Qed.

Lemma resolve_never_jira (w : World) (payload : dict) :
  never is_jira_call (resolve w payload).
Proof. unfold resolve, identify, classify, connect, load_settings. never_tac. Qed.

Lemma sync_comment_never_comment (w : World) (payload : dict) (ctx : Context)
  (existing_issues : list Ticket) :
  never is_issue_comment (sync_comment w payload ctx existing_issues).
Proof. unfold sync_comment. never_tac. Qed.

(** Lines 160-189: the one comment they can post ends the handling. *)
Lemma load_settings_comments (w : World) :
  filter is_issue_comment (fst (load_settings w)) = [] \/
  (exists text,
     filter is_issue_comment (fst (load_settings w)) = [GhCreateComment text] /\
     snd (load_settings w) = Return RespOk).
Proof.
  unfold load_settings. rewrite bind_call.
  destruct (gh_config w) as [|[e|loaded]].
  - right. eexists. split; reflexivity.
  - destruct e; try (now left). right. eexists. split; reflexivity.
  - crunch.
    all: unfold done, ret; cbn [fst snd filter is_issue_comment]; try (now left).
    all: right; eexists; split; reflexivity.
Qed.

Lemma resolve_comments (w : World) (payload : dict) :
  filter is_issue_comment (fst (resolve w payload)) = [] \/
  (exists text,
     filter is_issue_comment (fst (resolve w payload)) = [GhCreateComment text] /\
     snd (resolve w payload) = Return RespOk).
Proof.
  unfold resolve.
  pose proof (identify_never_comment w payload) as Hid. unfold never in Hid.
  destruct (identify w payload) as [t0 [issue|r|e]] eqn:E; cbn [fst] in Hid.
  - rewrite (bind_next _ _ _ _ eq_refl). cbn [fst snd]. rewrite filter_app, Hid.
    cbn [app].
    destruct (load_settings_comments w) as [Hl | (text & Hl & Hs)].
    + left. rewrite fst_bind, filter_app, Hl.
      now destruct (snd (load_settings w)).
    + right. exists text. unfold bind. rewrite Hs. cbn [fst snd]. auto.
  - left. now rewrite (bind_return _ _ _ _ eq_refl).
  - left. now rewrite (bind_raise _ _ _ _ eq_refl).
Qed.

Lemma prepare_after_resolve (w : World) (payload : dict) (t : list call)
  (issue : Issue) (settings : value) :
  resolve w payload = (t, Next (issue, settings)) ->
  filter is_issue_comment (fst (prepare w payload)) = [].
Proof.
  intros Hres. destruct (resolve_trace_kinds _ _ _ _ _ Hres) as [_ Hc].
  unfold prepare. rewrite (bind_next _ _ _ _ Hres). cbn [fst snd].
  rewrite filter_app, Hc. cbn [app].
  match goal with
  | |- filter is_issue_comment (fst ?m) = [] =>
      change (never is_issue_comment m)
  end.
  unfold label_gate, locate, map_fields. cbv zeta. never_tac.
Qed.

Lemma create_or_update_comments (w : World) (payload : dict) (ctx : Context) :
  let m := create_or_update w payload ctx in
  filter is_issue_comment (fst m) = [] \/
  (filter is_issue_comment (fst m) =
     [GhCreateComment
        (gh_comment_body_template
           (permalink (jira_create_issue w (ctx_issue_dict ctx))))] /\
   In (JiraCreateIssue (ctx_issue_dict ctx)) (fst m)).
Proof.
  cbv zeta. unfold create_or_update.
  destruct (ctx_existing_issues ctx) as [|jira_issue rest]; crunch.
  all: unfold done, ret; cbn [fst snd filter is_issue_comment]; try (now left).
  right. split; [reflexivity|]. now left.
Qed.

(** X27. At most one comment is posted on the issue per event, and it is
    one of two kinds: a diagnostic about the configuration, after which the
    handler answers "ok" having made no Jira call, or the link to a ticket
    that the same run has created. *)
Theorem one_comment_per_event (w : World) (payload : dict) :
  let trace := fst (bot_event w payload) in
  filter is_issue_comment trace = [] \/
  (exists text,
     filter is_issue_comment trace = [GhCreateComment text] /\
     filter is_jira_call trace = [] /\
     snd (bot_event w payload) = inr RespOk) \/
  (exists fields,
     filter is_issue_comment trace =
       [GhCreateComment
          (gh_comment_body_template (permalink (jira_create_issue w fields)))] /\
     In (JiraCreateIssue fields) trace).
Proof.
  cbv zeta.
  destruct (resolve w payload) as [t [[issue settings]|r|e]] eqn:Hres.
  - pose proof (prepare_after_resolve _ _ _ _ _ Hres) as Hpc.
    destruct (prepare w payload) as [tp [ctx|r|e]] eqn:Hp; cbn [fst] in Hpc.
    + rewrite bot_event_trace, Hp. cbn [fst snd].
      rewrite !filter_app, Hpc. cbn [app].
      assert (Hsync : filter is_issue_comment
                        match snd (create_or_update w payload ctx) with
                        | Next existing_issues =>
                            fst (sync_comment w payload ctx existing_issues)
                        | _ => []
                        end = []).
      { destruct (snd (create_or_update w payload ctx)); try reflexivity.
        apply sync_comment_never_comment. }
      rewrite Hsync, app_nil_r.
      destruct (create_or_update_comments w payload ctx) as [Hc | [Hc Hin]];
        [now left|].
      right. right. exists (ctx_issue_dict ctx). split; [exact Hc|].
      apply in_or_app. right. apply in_or_app. now left.
    + left. now rewrite (bot_event_prepare_return _ _ _ _ Hp).
    + left. now rewrite (bot_event_prepare_raise _ _ _ _ Hp).
  - pose proof (resolve_never_jira w payload) as Hj. unfold never in Hj.
    rewrite (bot_event_prepare_return _ _ _ _ (prepare_resolve_return _ _ _ _ Hres)).
    destruct (resolve_comments w payload) as [Hc | (text & Hc & Hs)];
      rewrite Hres in *; cbn [fst snd] in *; [now left|].
    right. left. exists text. injection Hs as ->. auto.
  - rewrite (bot_event_prepare_raise _ _ _ _ (prepare_resolve_raise _ _ _ _ Hres)).
    destruct (resolve_comments w payload) as [Hc | (text & Hc & Hs)];
      rewrite Hres in *; cbn [fst snd] in *; [now left|discriminate].
Qed.

(** X28. Jira is called only for a repository with a usable configuration:
    whenever a run makes a Jira call, the config file was found and loaded
    and the merged settings hold a non-empty [jira_project_key] and a
    non-empty [status_mapping]. *)
Theorem jira_needs_valid_config (w : World) (payload : dict) (c : call) :
  In c (fst (bot_event w payload)) ->
  is_jira_call c = true ->
  exists settings,
    merged_settings w = inr settings /\
    has_nonempty settings "jira_project_key" = true /\
    has_nonempty settings "status_mapping" = true.
Proof.
  intros Hin Hc.
  pose proof (never_In _ _ c (resolve_never_jira w payload)) as Hn.
  destruct (resolve w payload) as [t [[issue settings]|r|e]] eqn:Hres.
  - destruct (resolve_next _ _ _ _ _ Hres) as (t0 & _ & Hload & _).
    destruct (load_settings_next _ _ _ Hload) as (_ & Hm & Hk & Hs). eauto.
  - rewrite (bot_event_prepare_return _ _ _ _ (prepare_resolve_return _ _ _ _ Hres))
      in Hin. cbn [fst] in *. specialize (Hn Hin). congruence.
  - rewrite (bot_event_prepare_raise _ _ _ _ (prepare_resolve_raise _ _ _ _ Hres))
      in Hin. cbn [fst] in *. specialize (Hn Hin). congruence.
Qed.

Lemma jira_needs_valid_config_witness :
  exists settings,
    merged_settings (example_world (example_config []) []) = inr settings /\
    has_nonempty settings "jira_project_key" = true /\
    has_nonempty settings "status_mapping" = true.
Proof.
  apply (jira_needs_valid_config (example_world (example_config []) [])
           (issue_event "opened" [])
           (JiraSearchIssues (VStr "PRJ") "https://github.com/acme/widgets/issues/7"));
    [|reflexivity].
  cbn. auto 10.
Defined.
